(** * Life Agent: a shallow embedding of the orchestration core

    The development follows the layout of the Python sources:
    - [Py]            the Python built-ins the code relies on (str.lower,
                      the [in] test on strings, slices, truthiness, sorted);
    - [Models]        the rows of core/models.py;
    - the state-and-exception monad [M] in which the stateful code runs;
    - [Database]      core/database.py;
    - [AIBrain]       core/ai_brain.py;
    - [PluginBase]    core/plugin.py;
    - [PluginManager] core/plugin_manager.py;
    - [AgentCore]     core/agent_core.py;
    - [BasicFinancial] plugins/basic_financial.py.

    External collaborators (the language-model API, [json.loads], calendar
    arithmetic and the storage engine's failures) are not code of the
    repository: they enter as an environment [Env] and as a fault schedule
    in the world, and every theorem quantifies over them. *)

From Stdlib Require Import List String Ascii ZArith QArith Lia Bool.
From Stdlib Require Import Permutation Sorted.
Import ListNotations.
Set Warnings "-register-all".
Local Open Scope string_scope.
Local Open Scope Z_scope.
Local Open Scope list_scope.

(** ** Python built-ins *)

Module Py.

(** The double quote character, for building the prompts. *)
Definition dq : string := String (ascii_of_nat 34) EmptyString.

(** Line feed. *)
Definition nl : string := String (ascii_of_nat 10) EmptyString.

(** [str.lower] on one ASCII character; bytes outside [A-Z] are kept. *)
Definition lower_ascii (c : ascii) : ascii :=
  let n := nat_of_ascii c in
  if ((65 <=? n) && (n <=? 90))%nat then ascii_of_nat (n + 32) else c.

(** [s.lower()], exact on ASCII text. *)
Fixpoint lower (s : string) : string :=
  match s with
  | EmptyString => EmptyString
  | String c t => String (lower_ascii c) (lower t)
  end.

(** [needle in hay] on strings. *)
Fixpoint contains (needle hay : string) : bool :=
  String.prefix needle hay ||
  match hay with
  | EmptyString => false
  | String _ t => contains needle t
  end.

(** [any(f(x) for x in l)]. *)
Definition any {A : Type} (f : A -> bool) (l : list A) : bool := existsb f l.

(** [l[start:]] with Python's treatment of negative and large indices. *)
Definition slice_from {A : Type} (start : Z) (l : list A) : list A :=
  let n := Z.of_nat (List.length l) in
  let s := if start <? 0 then Z.max 0 (start + n) else Z.min start n in
  skipn (Z.to_nat s) l.

(** ASCII white space as [str.strip] sees it. *)
Definition is_space (c : ascii) : bool :=
  let n := nat_of_ascii c in
  (((9 <=? n) && (n <=? 13)) || ((28 <=? n) && (n <=? 32)))%nat.

Fixpoint lstrip (s : string) : string :=
  match s with
  | EmptyString => EmptyString
  | String c t => if is_space c then lstrip t else s
  end.

Fixpoint rstrip (s : string) : string :=
  match s with
  | EmptyString => EmptyString
  | String c t =>
      match rstrip t with
      | EmptyString => if is_space c then EmptyString else String c EmptyString
      | r => String c r
      end
  end.

(** [s.strip()]. *)
Definition strip (s : string) : string := rstrip (lstrip s).

(** [s.replace(old, new)] for a non-empty [old]: occurrences are replaced
    from the left and do not overlap.  [skip] counts the characters of an
    occurrence still to be dropped. *)
Fixpoint replace_aux (old new : string) (skip : nat) (s : string) : string :=
  match s with
  | EmptyString => EmptyString
  | String c t =>
      match skip with
      | S k => replace_aux old new k t
      | O =>
          if String.prefix old s
          then (new ++ replace_aux old new (String.length old - 1) t)%string
          else String c (replace_aux old new 0 t)
      end
  end.

Definition replace (old new s : string) : string := replace_aux old new 0 s.

(** [sep.join(l)]. *)
Fixpoint join (sep : string) (l : list string) : string :=
  match l with
  | [] => EmptyString
  | [x] => x
  | x :: t => (x ++ sep ++ join sep t)%string
  end.

(** Values produced by [json.loads] and held by JSON columns.  Floats are
    approximated by rationals; no theorem depends on their arithmetic. *)
Inductive Json : Type :=
| JNull
| JBool (b : bool)
| JInt (n : Z)
| JReal (q : Q)
| JStr (s : string)
| JArr (items : list Json)
| JObj (fields : list (string * Json)).

(** Python truthiness of such a value. *)
Definition truthy (v : Json) : bool :=
  match v with
  | JNull => false
  | JBool b => b
  | JInt n => negb (n =? 0)
  | JReal q => negb (Qeq_bool q 0)
  | JStr s => negb (String.eqb s EmptyString)
  | JArr l => match l with [] => false | _ => true end
  | JObj l => match l with [] => false | _ => true end
  end.

(** Truthiness of an [Optional[str]]. *)
Definition truthy_str (r : option string) : bool :=
  match r with
  | None => false
  | Some s => negb (String.eqb s EmptyString)
  end.

(** Truthiness of an optional integer ([None] and [0] are falsy). *)
Definition truthy_int (r : option Z) : bool :=
  match r with
  | None => false
  | Some n => negb (n =? 0)
  end.

(** Lookup in an insertion-ordered dict with string keys. *)
Fixpoint dict_get {V : Type} (d : list (string * V)) (k : string) : option V :=
  match d with
  | [] => None
  | (k', v) :: t => if String.eqb k' k then Some v else dict_get t k
  end.

(** [d[k] = v]: an existing key keeps its position, a new key goes last. *)
Fixpoint dict_set {V : Type} (d : list (string * V)) (k : string) (v : V)
  : list (string * V) :=
  match d with
  | [] => [(k, v)]
  | (k', v') :: t =>
      if String.eqb k' k then (k', v) :: t else (k', v') :: dict_set t k v
  end.

(** [dict(items)]. *)
Definition dict_of_items {V : Type} (items : list (string * V))
  : list (string * V) :=
  fold_left (fun d kv => dict_set d (fst kv) (snd kv)) items [].

(** [list(d.keys())]. *)
Definition keys {V : Type} (d : list (string * V)) : list string := map fst d.

(** [sorted(l, key=key)]: Python guarantees a stable sort; stable
    insertion sort computes the same list.  An element goes in front of
    the first one whose key is not smaller, so that among equal keys the
    earlier element of the input stays first. *)
Section Sorted.
Context {A : Type} (key : A -> Z).

Fixpoint insert_by (x : A) (l : list A) : list A :=
  match l with
  | [] => [x]
  | y :: t => if key x <=? key y then x :: l else y :: insert_by x t
  end.

Definition sorted_by (l : list A) : list A :=
  fold_right insert_by [] l.
End Sorted.

End Py.

(** ** Exceptions and results *)

(** A raised Python exception, with its message.  Every exception of the
    model is an instance of [Exception]. *)
Inductive exn : Type := Exception (msg : string).

Inductive result (A : Type) : Type :=
| Ok (a : A)
| Raise (e : exn).
Arguments Ok {A} a.
Arguments Raise {A} e.

(** ** core/models.py *)

Module Models.

Record User : Type := mkUser {
  user_id_ : Z;
  telegram_id : string;
  username : option string;
  first_name : option string;
  last_name : option string;
  timezone : string;
  preferences : Py.Json;
  user_created_at : Z
}.

Record Conversation : Type := mkConversation {
  conv_id : Z;
  conv_user_id : option Z;
  message : string;
  response : string;
  timestamp : Z
}.

Record Memory : Type := mkMemory {
  mem_id : Z;
  mem_user_id : option Z;
  category : string;
  content : string;
  importance : Q;
  mem_created_at : Z;
  last_accessed : Z;
  access_count : Z
}.

Record FinancialTransaction : Type := mkFinancialTransaction {
  tx_id : Z;
  tx_user_id : option Z;
  amount : Q;
  tx_category : string;
  description : string;
  transaction_date : Z;
  source : string
}.

Record PluginData : Type := mkPluginData {
  pd_id : Z;
  pd_user_id : option Z;
  plugin_name : string;
  data_key : string;
  data_value : Py.Json;
  pd_created_at : Z;
  pd_updated_at : Z
}.

(** The tables, each in row order. *)
Record DB : Type := mkDB {
  users : list User;
  conversations : list Conversation;
  memories : list Memory;
  financial_transactions : list FinancialTransaction;
  plugin_data : list PluginData
}.

Definition empty_db : DB := mkDB [] [] [] [] [].

(** The integer primary key given to a new row: one more than the largest
    key in the table. *)
Definition next_id {R : Type} (id : R -> Z) (rows : list R) : Z :=
  1 + fold_right (fun r m => Z.max (id r) m) 0 rows.

(** [query.first()]: the first matching row in row order, if any. *)
Definition first {R : Type} (p : R -> bool) (rows : list R) : option R :=
  find p rows.

(** Equality of nullable integer columns as the ORM renders it
    ([== None] becomes [IS NULL]). *)
Definition eq_opt_Z (a b : option Z) : bool :=
  match a, b with
  | None, None => true
  | Some x, Some y => x =? y
  | _, _ => false
  end.

End Models.

(** ** The world the code runs in *)

(** The dict [get_or_create_user] returns. *)
Record UserData : Type := mkUserData {
  ud_id : Z;
  ud_telegram_id : string;
  ud_username : option string;
  ud_first_name : option string;
  ud_last_name : option string;
  ud_timezone : string;
  ud_preferences : Py.Json
}.

(** One entry of the in-memory conversation history. *)
Record Entry : Type := mkEntry {
  role : string;
  content : string;
  timestamp : Z
}.

(** [AgentCore.conversation_context] once it has been loaded. *)
Record Context : Type := mkContext {
  ctx_user : option UserData;
  history : list Entry
}.

(** The mutable fields of [AgentCore].  [conversation_context = None] is
    the empty dict the constructor installs. *)
Record Agent : Type := mkAgent {
  current_user_id : option Z;
  current_user : option UserData;
  conversation_context : option Context;
  max_context_messages : Z
}.

(** The world: the agent object, the persistent store, the schedule of
    storage faults (one entry is consumed by each database session, [true]
    makes the session fail) and the clock read by [datetime.utcnow]. *)
Record World : Type := mkWorld {
  agent : Agent;
  db : Models.DB;
  faults : list bool;
  clock : Z
}.

(** A request to [client.messages.create]. *)
Record Request : Type := mkRequest {
  req_max_tokens : Z;
  req_system : option string;
  req_messages : list (string * string)
}.

(** The external collaborators.  [llm t r] is the text
    [client.messages.create(...).content[0].text] of the answer to request
    [r] issued at time [t], or the exception the call raises. *)
Record Env : Type := mkEnv {
  llm : Z -> Request -> result string;
  json_loads : string -> result Py.Json
}.

(** ** The state-and-exception monad *)

Definition M (A : Type) : Type := World -> result A * World.

Definition ret {A : Type} (a : A) : M A := fun w => (Ok a, w).

Definition raise {A : Type} (e : exn) : M A := fun w => (Raise e, w).

Definition bind {A B : Type} (m : M A) (k : A -> M B) : M B :=
  fun w =>
    match m w with
    | (Ok a, w') => k a w'
    | (Raise e, w') => (Raise e, w')
    end.

(** [try: body except Exception as e: handler]. *)
Definition try_except {A : Type} (body : M A) (handler : exn -> M A) : M A :=
  fun w =>
    match body w with
    | (Ok a, w') => (Ok a, w')
    | (Raise e, w') => handler e w'
    end.

Notation "x <- c1 ;; c2" := (bind c1 (fun x => c2))
  (at level 61, c1 at next level, right associativity).
Notation "c1 ;; c2" := (bind c1 (fun _ => c2))
  (at level 61, right associativity).

Definition get_agent : M Agent := fun w => (Ok (agent w), w).

Definition put_agent (a : Agent) : M unit :=
  fun w => (Ok tt, mkWorld a (db w) (faults w) (clock w)).

Definition get_db_state : M Models.DB := fun w => (Ok (db w), w).

Definition put_db_state (d : Models.DB) : M unit :=
  fun w => (Ok tt, mkWorld (agent w) d (faults w) (clock w)).

(** [datetime.utcnow()]: successive readings are strictly increasing. *)
Definition utcnow : M Z :=
  fun w => (Ok (clock w), mkWorld (agent w) (db w) (faults w) (clock w + 1)).

(** Lifting of a fallible pure step. *)
Definition lift_result {A : Type} (r : result A) : M A :=
  match r with
  | Ok a => ret a
  | Raise e => raise e
  end.

(** [self.client.messages.create(...)] followed by [.content[0].text]. *)
Definition llm_call (env : Env) (r : Request) : M string :=
  now <- utcnow ;; lift_result (llm env now r).

(** The outcome of a computation, without the final world. *)
Definition outcome {A : Type} (m : M A) (w : World) : result A := fst (m w).

(** The world a computation leaves. *)
Definition final {A : Type} (m : M A) (w : World) : World := snd (m w).

(** ** core/database.py *)

Module Database.
Import Models.

(** [with get_db() as db: body].  The session fails when the fault schedule
    says so, before the body has changed anything; an exception inside the
    body rolls the store back to what it was and is raised again. *)
Definition with_db {A : Type} (body : M A) : M A :=
  fun w =>
    match faults w with
    | true :: rest =>
        (Raise (Exception "OperationalError"),
         mkWorld (agent w) (db w) rest (clock w))
    | _ =>
        let w0 := mkWorld (agent w) (db w) (tl (faults w)) (clock w) in
        match body w0 with
        | (Ok a, w') => (Ok a, w')
        | (Raise e, w') =>
            (Raise e, mkWorld (agent w') (db w) (faults w') (clock w'))
        end
    end.

Definition user_data (u : User) : UserData :=
  mkUserData (user_id_ u) (telegram_id u) (username u) (first_name u)
             (last_name u) (timezone u) (preferences u).

Definition add_user (u : User) (d : DB) : DB :=
  mkDB (users d ++ [u]) (conversations d) (memories d)
       (financial_transactions d) (plugin_data d).

(** [get_or_create_user(telegram_id, username, first_name, last_name)];
    [telegram_id] is the string [str(telegram_id)]. *)
Definition get_or_create_user (tid : string)
    (uname fname lname : option string) : M UserData :=
  with_db (
    d <- get_db_state ;;
    match first (fun u => String.eqb (telegram_id u) tid) (users d) with
    | Some u => ret (user_data u)
    | None =>
        now <- utcnow ;;
        let u := mkUser (next_id user_id_ (users d)) tid uname fname lname
                        "UTC" (Py.JObj []) now in
        put_db_state (add_user u d) ;;
        ret (user_data u)
    end).

End Database.

(** ** core/ai_brain.py *)

Module AIBrain.

Definition quoted (s : string) : string := (Py.dq ++ s ++ Py.dq)%string.

Definition system_prompt : string :=
  Py.join Py.nl [
    "You are a personal life assistant agent with access to various tools and plugins. Your role is to:";
    EmptyString;
    "1. Help users manage their daily life through natural conversation";
    "2. Remember important information about the user and their preferences";
    "3. Be proactive in offering helpful suggestions and reminders";
    "4. Use available plugins and tools to execute actions, not just provide information";
    "5. Maintain context across conversations";
    "6. Be concise but friendly - avoid over-explaining";
    ("7. When you need to use a plugin or tool, do it naturally without announcing "
       ++ quoted "I'll use X plugin")%string;
    EmptyString;
    "You have access to:";
    "- Personal memory (remember and recall user information)";
    "- Smart reminders (time-based, location-based, context-based)";
    "- Calendar management";
    "- Financial tracking";
    "- Relationship management";
    "- And more plugins as they're enabled";
    EmptyString;
    "Always be helpful, proactive, and natural in your communication. Think of yourself as a capable personal assistant who knows the user well."
  ].

(** [_build_messages(current_message, context)]: the last ten history
    entries, then the current message. *)
Definition _build_messages (current_message : string)
    (context : option Context) : list (string * string) :=
  let hist := match context with Some c => history c | None => [] end in
  map (fun msg => (role msg, content msg)) (Py.slice_from (-10) hist)
  ++ [("user", current_message)].

Definition think_apology : string :=
  "I apologize, I'm having trouble processing that right now. Please try again.".

(** [think(message, context, available_plugins)]. *)
Definition think (env : Env) (message : string) (context : option Context)
    (available_plugins : list string) : M string :=
  let messages := _build_messages message context in
  let sys :=
    match available_plugins with
    | [] => system_prompt
    | _ => (system_prompt ++ Py.nl ++ Py.nl ++ "Available plugins: "
              ++ Py.join ", " available_plugins)%string
    end in
  try_except
    (llm_call env (mkRequest 4096 (Some sys) messages))
    (fun _ => ret think_apology).

Definition intent_prompt (message : string) : string :=
  Py.join Py.nl [
    "Analyze this message and determine the user's intent:";
    "        ";
    ("Message: " ++ quoted message)%string;
    EmptyString;
    "Respond with JSON only:";
    "{";
    ("    " ++ quoted "primary_intent" ++ ": "
       ++ quoted "category of intent (memory, reminder, calendar, financial, etc.)"
       ++ ",")%string;
    ("    " ++ quoted "action_type" ++ ": "
       ++ quoted "query, create, update, delete, or general" ++ ",")%string;
    ("    " ++ quoted "entities" ++ ": [" ++ quoted "list" ++ ", "
       ++ quoted "of" ++ ", " ++ quoted "key" ++ ", " ++ quoted "entities"
       ++ "],")%string;
    ("    " ++ quoted "urgency" ++ ": " ++ quoted "low, medium, or high"
       ++ ",")%string;
    ("    " ++ quoted "requires_context" ++ ": true/false")%string;
    "}"
  ].

(** The classification [analyze_intent] falls back to. *)
Definition default_intent : Py.Json :=
  Py.JObj [
    ("primary_intent", Py.JStr "general");
    ("action_type", Py.JStr "query");
    ("entities", Py.JArr []);
    ("urgency", Py.JStr "medium");
    ("requires_context", Py.JBool false)
  ].

(** The clean-up applied to the model's text before [json.loads]. *)
Definition clean_json_text (text : string) : string :=
  Py.strip
    (Py.replace "```" EmptyString
       (Py.replace ("```json" ++ Py.nl)%string EmptyString
          (Py.strip text))).

(** The request [analyze_intent] sends. *)
Definition intent_request (message : string) : Request :=
  mkRequest 500 None [("user", intent_prompt message)].

(** [analyze_intent(message)]. *)
Definition analyze_intent (env : Env) (message : string) : M Py.Json :=
  try_except
    (text <- llm_call env (intent_request message) ;;
     lift_result (json_loads env (clean_json_text text)))
    (fun _ => ret default_intent).

Definition summary_prompt (messages : list (string * string)) : string :=
  let conversation_text :=
    Py.join Py.nl
      (map (fun msg => (fst msg ++ ": " ++ snd msg)%string) messages) in
  Py.join Py.nl [
    "Summarize this conversation, extracting key information that should be remembered:";
    EmptyString;
    conversation_text;
    EmptyString;
    "Focus on:";
    "- Important facts about the user";
    "- Decisions made";
    "- Commitments or plans";
    "- Preferences stated";
    "- Any actionable items";
    EmptyString;
    "Provide a concise summary (2-3 sentences)."
  ].

Definition summary_fallback : string := "Unable to summarize conversation.".

(** The request [summarize_conversation] sends. *)
Definition summary_request (messages : list (string * string)) : Request :=
  mkRequest 300 None [("user", summary_prompt messages)].

(** [summarize_conversation(messages)]; a message is its role and content. *)
Definition summarize_conversation (env : Env)
    (messages : list (string * string)) : M string :=
  try_except
    (text <- llm_call env (summary_request messages) ;;
     ret (Py.strip text))
    (fun _ => ret summary_fallback).

End AIBrain.

(** ** core/plugin.py *)

Module PluginBase.
Import Models.

(** A plugin object as the registry sees it: the class attributes and the
    two methods dispatch calls.  [can_handle] is synchronous and may raise;
    [handle] runs in the world and may raise. *)
Record Plugin : Type := mkPlugin {
  name : string;
  priority : Z;
  keywords : list string;
  can_handle : string -> option Context -> result bool;
  handle : string -> option Context -> M (option string)
}.

(** The default [Plugin.can_handle]. *)
Definition default_can_handle (kws : list string) (message : string)
    (context : option Context) : result bool :=
  match kws with
  | [] => Ok false
  | _ =>
      let message_lower := Py.lower message in
      Ok (Py.any (fun keyword => Py.contains (Py.lower keyword) message_lower)
                 kws)
  end.

(** The filter both [store_data] and [load_data] use. *)
Definition matches (pname key : string) (uid : option Z) (r : PluginData)
  : bool :=
  String.eqb (plugin_name r) pname && String.eqb (data_key r) key
  && eq_opt_Z (pd_user_id r) uid.

Definition set_value (now : Z) (value : Py.Json) (r : PluginData)
  : PluginData :=
  mkPluginData (pd_id r) (pd_user_id r) (plugin_name r) (data_key r) value
               (pd_created_at r) now.

(** Assignment to the first matching row. *)
Fixpoint update_first (p : PluginData -> bool) (f : PluginData -> PluginData)
    (rows : list PluginData) : list PluginData :=
  match rows with
  | [] => []
  | r :: t => if p r then f r :: t else r :: update_first p f t
  end.

Definition with_plugin_data (d : DB) (rows : list PluginData) : DB :=
  mkDB (users d) (conversations d) (memories d) (financial_transactions d)
       rows.

(** [store_data(key, value)] of the plugin named [pname]. *)
Definition store_data (pname key : string) (value : Py.Json) : M unit :=
  Database.with_db (
    d <- get_db_state ;;
    a <- get_agent ;;
    let uid := current_user_id a in
    now <- utcnow ;;
    match first (matches pname key uid) (plugin_data d) with
    | Some _ =>
        put_db_state
          (with_plugin_data d
             (update_first (matches pname key uid) (set_value now value)
                           (plugin_data d)))
    | None =>
        let row := mkPluginData (next_id pd_id (plugin_data d)) uid pname key
                                value now now in
        put_db_state (with_plugin_data d (plugin_data d ++ [row]))
    end).

(** [load_data(key)] of the plugin named [pname]; [JNull] is Python's
    [None]. *)
Definition load_data (pname key : string) : M Py.Json :=
  Database.with_db (
    d <- get_db_state ;;
    a <- get_agent ;;
    match first (matches pname key (current_user_id a)) (plugin_data d) with
    | Some r => ret (data_value r)
    | None => ret Py.JNull
    end).

End PluginBase.

(** ** core/plugin_manager.py *)

Module PluginManager.
Import PluginBase.

(** [PluginManager.plugins]: an insertion-ordered dict from the module name
    to the plugin instance. *)
Definition Plugins : Type := list (string * Plugin).

(** The last step of [load_plugins]:
    [dict(sorted(self.plugins.items(), key=lambda x: x[1].priority))]. *)
Definition sort_plugins (plugins : Plugins) : Plugins :=
  Py.dict_of_items (Py.sorted_by (fun x => priority (snd x)) plugins).

(** One turn of the loop of [route_message]: [Some response] when the loop
    returns at this plugin, [None] when it goes on.  The call of
    [can_handle] stands before the [try]. *)
Definition try_plugin (plugin : Plugin) (message : string)
    (context : option Context) : M (option string) :=
  claimed <- lift_result (can_handle plugin message context) ;;
  if (claimed : bool) then
    try_except
      (response <- handle plugin message context ;;
       if Py.truthy_str response then ret response else ret None)
      (fun _ => ret None)
  else ret None.

(** [route_message(message, context)] over [self.plugins]. *)
Fixpoint route_message (plugins : Plugins) (message : string)
    (context : option Context) : M (option string) :=
  match plugins with
  | [] => ret None
  | (_, plugin) :: rest =>
      r <- try_plugin plugin message context ;;
      match r with
      | Some response => ret (Some response)
      | None => route_message rest message context
      end
  end.

(** Dispatch as the specification words it: the handlers are tried in
    order; a handler that does not claim the message, or claims it and
    answers nothing (null, the empty string or a failure inside [handle]),
    is passed over; the first non-empty answer is the result and ends the
    scan; with no answer at all the result is null. *)
Inductive Dispatch (message : string) (context : option Context)
  : Plugins -> World -> option string -> World -> Prop :=
| Dispatch_none : forall w,
    Dispatch message context [] w None w
| Dispatch_unclaimed : forall n p rest w r w',
    can_handle p message context = Ok false ->
    Dispatch message context rest w r w' ->
    Dispatch message context ((n, p) :: rest) w r w'
| Dispatch_answer : forall n p rest w s w',
    can_handle p message context = Ok true ->
    handle p message context w = (Ok (Some s), w') ->
    s <> EmptyString ->
    Dispatch message context ((n, p) :: rest) w (Some s) w'
| Dispatch_null : forall n p rest w w1 r w',
    can_handle p message context = Ok true ->
    handle p message context w = (Ok None, w1) ->
    Dispatch message context rest w1 r w' ->
    Dispatch message context ((n, p) :: rest) w r w'
| Dispatch_empty : forall n p rest w w1 r w',
    can_handle p message context = Ok true ->
    handle p message context w = (Ok (Some EmptyString), w1) ->
    Dispatch message context rest w1 r w' ->
    Dispatch message context ((n, p) :: rest) w r w'
| Dispatch_failed : forall n p rest w e w1 r w',
    can_handle p message context = Ok true ->
    handle p message context w = (Raise e, w1) ->
    Dispatch message context rest w1 r w' ->
    Dispatch message context ((n, p) :: rest) w r w'.

End PluginManager.

(** ** core/agent_core.py *)

Module AgentCore.

Definition with_user (a : Agent) (user : UserData) : Agent :=
  mkAgent (Some (ud_id user)) (Some user) (conversation_context a)
          (max_context_messages a).

Definition with_context (a : Agent) (c : Context) : Agent :=
  mkAgent (current_user_id a) (current_user a) (Some c)
          (max_context_messages a).

(** [ORDER BY timestamp DESC]; rows with equal timestamps stay in row
    order. *)
Definition order_by_timestamp_desc (rows : list Models.Conversation)
  : list Models.Conversation :=
  Py.sorted_by (fun c => - Models.timestamp c) rows.

(** [LIMIT n] as SQLite reads it: a negative bound is no bound. *)
Definition limit {R : Type} (n : Z) (rows : list R) : list R :=
  if n <? 0 then rows else firstn (Z.to_nat n) rows.

Definition user_entry (conv : Models.Conversation) : Entry :=
  mkEntry "user" (Models.message conv) (Models.timestamp conv).

Definition assistant_entry (conv : Models.Conversation) : Entry :=
  mkEntry "assistant" (Models.response conv) (Models.timestamp conv).

(** The rows the query of [_load_conversation_context] returns. *)
Definition recent_conversations (a : Agent) (d : Models.DB)
  : list Models.Conversation :=
  limit (max_context_messages a)
    (order_by_timestamp_desc
       (filter (fun c => Models.eq_opt_Z (Models.conv_user_id c)
                                         (current_user_id a))
               (Models.conversations d))).

(** [_load_conversation_context()]. *)
Definition _load_conversation_context : M unit :=
  Database.with_db (
    a <- get_agent ;;
    d <- get_db_state ;;
    let recent_convos := recent_conversations a d in
    put_agent
      (with_context a
         (mkContext (current_user a)
            (map user_entry (rev recent_convos)
             ++ map assistant_entry (rev recent_convos))))).

(** [set_user(telegram_id, username, first_name, last_name)]. *)
Definition set_user (tid : string) (uname fname lname : option string)
  : M unit :=
  user <- Database.get_or_create_user tid uname fname lname ;;
  a <- get_agent ;;
  put_agent (with_user a user) ;;
  _load_conversation_context.

Definition add_conversation (c : Models.Conversation) (d : Models.DB)
  : Models.DB :=
  Models.mkDB (Models.users d) (Models.conversations d ++ [c])
    (Models.memories d) (Models.financial_transactions d)
    (Models.plugin_data d).

Definition add_memory (m : Models.Memory) (d : Models.DB) : Models.DB :=
  Models.mkDB (Models.users d) (Models.conversations d)
    (Models.memories d ++ [m]) (Models.financial_transactions d)
    (Models.plugin_data d).

(** [_store_conversation(message, response)]. *)
Definition _store_conversation (message response : string) : M unit :=
  Database.with_db (
    a <- get_agent ;;
    now <- utcnow ;;
    d <- get_db_state ;;
    put_db_state
      (add_conversation
         (Models.mkConversation
            (Models.next_id Models.conv_id (Models.conversations d))
            (current_user_id a) message response now) d)).

(** The row [_extract_memory] adds for a summary. *)
Definition memory_row (d : Models.DB) (uid : option Z) (summary : string)
    (created accessed : Z) : Models.Memory :=
  Models.mkMemory (Models.next_id Models.mem_id (Models.memories d)) uid
    "general" summary (1 # 2) created accessed 0.

(** [_extract_memory(message, response)]. *)
Definition _extract_memory (env : Env) (message response : string)
  : M unit :=
  try_except
    (summary <- AIBrain.summarize_conversation env
                  [("user", message); ("assistant", response)] ;;
     if 20 <? Z.of_nat (String.length summary) then
       Database.with_db (
         a <- get_agent ;;
         created <- utcnow ;;
         accessed <- utcnow ;;
         d <- get_db_state ;;
         put_db_state
           (add_memory
              (memory_row d (current_user_id a) summary created accessed) d))
     else ret tt)
    (fun _ => ret tt).

(** The truncation at the end of [_update_context]. *)
Definition truncate_history (max_context : Z) (h : list Entry) : list Entry :=
  if max_context * 2 <? Z.of_nat (List.length h)
  then Py.slice_from (- max_context * 2) h
  else h.

(** [_update_context(message, response)]; before a context has been loaded
    the dict has no ['history'] key. *)
Definition _update_context (message response : string) : M unit :=
  a <- get_agent ;;
  match conversation_context a with
  | None => raise (Exception "KeyError: 'history'")
  | Some c =>
      t1 <- utcnow ;;
      t2 <- utcnow ;;
      let h := history c ++ [mkEntry "user" message t1]
                 ++ [mkEntry "assistant" response t2] in
      put_agent
        (with_context a
           (mkContext (ctx_user c)
              (truncate_history (max_context_messages a) h)))
  end.

(** [intent.get('requires_context')] with its truth value; anything but a
    dict has no [get]. *)
Definition requires_context (intent : Py.Json) : result bool :=
  match intent with
  | Py.JObj fields =>
      Ok (match Py.dict_get fields "requires_context" with
          | Some v => Py.truthy v
          | None => false
          end)
  | _ => Raise (Exception "AttributeError: no attribute 'get'")
  end.

Definition no_user_reply : string := "Please set user context first".

Definition error_reply : string :=
  "I encountered an error processing that. Please try again.".

(** The body of the [try] of [process_message]. *)
Definition process_steps (env : Env) (plugins : PluginManager.Plugins)
    (message : string) : M string :=
  intent <- AIBrain.analyze_intent env message ;;
  a <- get_agent ;;
  plugin_response <-
    PluginManager.route_message plugins message (conversation_context a) ;;
  response <-
    match plugin_response with
    | Some r =>
        if Py.truthy_str (Some r) then ret r
        else (a' <- get_agent ;;
              AIBrain.think env message (conversation_context a')
                (Py.keys plugins))
    | None =>
        a' <- get_agent ;;
        AIBrain.think env message (conversation_context a') (Py.keys plugins)
    end ;;
  _store_conversation message response ;;
  flagged <- lift_result (requires_context intent) ;;
  (if (flagged : bool) then _extract_memory env message response
   else ret tt) ;;
  _update_context message response ;;
  ret response.

(** [process_message(message)]. *)
Definition process_message (env : Env) (plugins : PluginManager.Plugins)
    (message : string) : M string :=
  a <- get_agent ;;
  if negb (Py.truthy_int (current_user_id a)) then ret no_user_reply
  else try_except (process_steps env plugins message)
                  (fun _ => ret error_reply).

End AgentCore.

(** ** plugins/basic_financial.py *)

Module BasicFinancial.

Definition name : string := "Basic Financial".

Definition priority : Z := 40.

Definition keywords : list string :=
  ["spent"; "spend"; "cost"; "price"; "bought";
   "paid"; "expense"; "income"; "earned"; "budget";
   "money"; "dollars"; "$"; "financial"; "transaction"].

(** [can_handle(message, context)]. *)
Definition can_handle (message : string) (context : option Context)
  : result bool :=
  let message_lower := Py.lower message in
  Ok (Py.any (fun keyword => Py.contains keyword message_lower) keywords).

(** The first line of [get_commands()]: the phrase the plugin advertises
    for logging an expense. *)
Definition get_commands : list (string * string) :=
  [("I spent $X on [category]", "Log an expense");
   ("I earned $X", "Log income");
   ("How much did I spend this month", "View spending report");
   ("Set [category] budget to $X", "Set budget limit");
   ("Check budget", "View budget status")].

(** Calendar arithmetic and text rendering of the standard library, which
    the report path uses. *)
Record Calendar : Type := mkCalendar {
  start_of_day : Z -> Z;
  start_of_month : Z -> Z;
  start_of_year : Z -> Z;
  minus_days : Z -> Z -> Z;
  same_month_and_year : Z -> Z -> bool;
  strftime : string -> Z -> string;
  render_summary : list Models.FinancialTransaction -> string -> string
}.

Section Methods.
Variable cal : Calendar.

(** The methods [handle] delegates to on the paths that log or budget;
    their bodies call the structured-extraction service and format
    floating-point amounts. *)
Variable _log_transaction : string -> string -> M string.
Variable _set_budget : string -> M string.
Variable _check_budget : M string.

(** [_extract_time_range(query)], as the pair (start, end); [datetime.now()]
    is read from the world's clock. *)
Definition _extract_time_range (query : string) : M (Z * Z) :=
  let query_lower := Py.lower query in
  now <- utcnow ;;
  if Py.contains "today" query_lower then ret (start_of_day cal now, now)
  else if Py.contains "week" query_lower then ret (minus_days cal now 7, now)
  else if Py.contains "month" query_lower
          || Py.contains "this month" query_lower
       then ret (start_of_month cal now, now)
  else if Py.contains "year" query_lower then ret (start_of_year cal now, now)
  else ret (start_of_month cal now, now).

(** [_format_period(time_range)]. *)
Definition _format_period (time_range : Z * Z) : string :=
  let (start, end_) := time_range in
  if same_month_and_year cal start end_ then strftime cal "%B %Y" start
  else (strftime cal "%b %Y" start ++ " - " ++ strftime cal "%b %Y" end_)%string.

Definition in_range (uid : option Z) (time_range : Z * Z)
    (t : Models.FinancialTransaction) : bool :=
  Models.eq_opt_Z (Models.tx_user_id t) uid
  && (fst time_range <=? Models.transaction_date t)
  && (Models.transaction_date t <=? snd time_range).

Definition report_trouble : string := "I had trouble generating that report.".

(** [_generate_report(query)]; the text of a non-empty report is rendered
    by [render_summary]. *)
Definition _generate_report (query : string) : M string :=
  try_except
    (time_range <- _extract_time_range query ;;
     Database.with_db (
       d <- get_db_state ;;
       a <- get_agent ;;
       let transactions :=
         filter (in_range (current_user_id a) time_range)
                (Models.financial_transactions d) in
       match transactions with
       | [] =>
           ret ("No transactions found for "
                  ++ _format_period time_range)%string
       | _ => ret (render_summary cal transactions (_format_period time_range))
       end))
    (fun _ => ret report_trouble).

Definition mentions (words : list string) (message_lower : string) : bool :=
  Py.any (fun word => Py.contains word message_lower) words.

(** [handle(message, context)]: the tests are made in this order. *)
Definition handle (message : string) (context : option Context)
  : M (option string) :=
  let message_lower := Py.lower message in
  if mentions ["how much"; "spent"; "total"; "report"; "summary"] message_lower
  then (r <- _generate_report message ;; ret (Some r))
  else if Py.contains "budget" message_lower then
    if mentions ["set"; "create"; "update"] message_lower
    then (r <- _set_budget message ;; ret (Some r))
    else (r <- _check_budget ;; ret (Some r))
  else if mentions ["spent"; "paid"; "bought"; "cost"] message_lower
  then (r <- _log_transaction message "expense" ;; ret (Some r))
  else if mentions ["earned"; "received"; "income"] message_lower
  then (r <- _log_transaction message "income" ;; ret (Some r))
  else ret None.

End Methods.

End BasicFinancial.

(** ** Registry lifecycle: the rest of core/plugin_manager.py and
    core/plugin.py *)

Module Lifecycle.




(** [Plugin.get_config(key, default)] on the injected settings; a settings
    value that is not a mapping has no [get]. *)
Definition get_config (config : Py.Json) (key : string) (default : Py.Json)
  : result Py.Json :=
  match config with
  | Py.JObj d =>
      Ok (match Py.dict_get d key with Some v => v | None => default end)
  | _ => Raise (Exception "AttributeError: no attribute 'get'")
  end.

(** [Plugin.set_config(key, value)]: the settings after the assignment;
    only a mapping accepts an assignment under a string key. *)
Definition set_config (config : Py.Json) (key : string) (value : Py.Json)
  : result Py.Json :=
  match config with
  | Py.JObj d => Ok (Py.JObj (Py.dict_set d key value))
  | _ => Raise (Exception "TypeError: item assignment")
  end.

(** A plugin instance as the registry holds it: the dispatch methods, the
    settings, and the lifecycle hooks, which may read the settings. *)
Record Instance : Type := mkInstance {
  plugin : PluginBase.Plugin;
  config : Py.Json;
  initialize : Py.Json -> M unit;
  shutdown : Py.Json -> M unit;
  get_commands : list (string * string)
}.


(** [PluginManager.plugins] with the whole instances. *)
Definition Instances : Type := list (string * Instance).



Section Loading.

(** Importing a plugin file, finding its class and constructing it: an
    exception, no class found, or a fresh instance. *)
Variable import_plugin : string -> result (option Instance).

(** [enabled_plugins] and [plugin_settings] of the configuration. *)
Variable enabled_plugins : list string.
Variable plugin_settings : list (string * Py.Json).




End Loading.

(** [shutdown_all()]. *)
Fixpoint shutdown_all (instances : Instances) : M unit :=
  match instances with
  | [] => ret tt
  | (_, inst) :: rest =>
      try_except (shutdown inst (config inst)) (fun _ => ret tt) ;;
      shutdown_all rest
  end.


(** [get_all_commands()]: the plugins with a non-empty command dict. *)
Definition get_all_commands (instances : Instances)
  : list (string * list (string * string)) :=
  Py.dict_of_items
    (flat_map (fun x =>
                 match get_commands (snd x) with
                 | [] => []
                 | commands => [(fst x, commands)]
                 end) instances).

End Lifecycle.

(** ** plugins/memory.py *)

Module MemoryPlugin.

Definition name : string := "Memory".

Definition priority : Z := 1.

(** [can_handle]: the plugin works in the background. *)
Definition can_handle (message : string) (context : option Context)
  : result bool := Ok false.

Definition handle (message : string) (context : option Context)
  : M (option string) := ret None.

Definition plugin : PluginBase.Plugin :=
  PluginBase.mkPlugin name priority [] can_handle handle.

End MemoryPlugin.

(** ** plugins/conversation.py *)

Module ConversationPlugin.

Definition name : string := "Conversation".

Definition priority : Z := 999.

(** [can_handle]: the fallback claims everything. *)
Definition can_handle (message : string) (context : option Context)
  : result bool := Ok true.

Definition trouble : string :=
  "I'm having trouble processing that right now. Could you try rephrasing?".

(** [handle(message, context)]; [names] is
    [list(self.agent.plugin_manager.plugins.keys())]. *)
Definition handle (env : Env) (names : list string) (message : string)
    (context : option Context) : M (option string) :=
  try_except
    (response <- AIBrain.think env message context names ;;
     ret (Some response))
    (fun _ => ret (Some trouble)).

Definition plugin (env : Env) (names : list string) : PluginBase.Plugin :=
  PluginBase.mkPlugin name priority [] can_handle (handle env names).

End ConversationPlugin.

(** ** Statements of the specification, and sample data *)

(** No storage fault is scheduled. *)
Definition no_faults (w : World) : Prop :=
  Forall (fun b => b = false) (faults w).

(** The world seen with another current user. *)
Definition as_user (uid : option Z) (w : World) : World :=
  mkWorld
    (mkAgent uid (current_user (agent w)) (conversation_context (agent w))
             (max_context_messages (agent w)))
    (db w) (faults w) (clock w).

(** The history of the current context, if one is loaded. *)
Definition current_history (w : World) : option (list Entry) :=
  option_map history (conversation_context (agent w)).

(** The stored plugin value for a (plugin, user, key) triple, if any. *)
Definition stored_value (w : World) (pname : string) (uid : option Z)
    (key : string) : option Py.Json :=
  option_map Models.data_value
    (Models.first (PluginBase.matches pname key uid)
                  (Models.plugin_data (db w))).

(** The plugin-data table [store_data] leaves. *)
Definition stored_table (pname key : string) (uid : option Z) (now : Z)
    (value : Py.Json) (rows : list Models.PluginData)
  : list Models.PluginData :=
  match Models.first (PluginBase.matches pname key uid) rows with
  | Some _ =>
      PluginBase.update_first (PluginBase.matches pname key uid)
        (PluginBase.set_value now value) rows
  | None =>
      rows ++ [Models.mkPluginData (Models.next_id Models.pd_id rows) uid
                 pname key value now now]
  end.

(** The plugin-data table holds at most one row for every (plugin, user,
    key) triple. *)
Definition one_row_per_triple (rows : list Models.PluginData) : Prop :=
  forall pname key uid,
    (List.length (filter (PluginBase.matches pname key uid) rows) <= 1)%nat.

(** The users registered under a transport id. *)
Definition users_with (tid : string) (w : World) : list Models.User :=
  filter (fun u => String.eqb (Models.telegram_id u) tid)
         (Models.users (db w)).

(** The history as the specification words it: the user's persisted turns
    in chronological order (oldest first), cut to the most recent
    [max_turns] turns, each turn giving a user entry followed by its
    assistant entry. *)
Definition chronological_history (max_turns : nat) (uid : option Z)
    (rows : list Models.Conversation) : list Entry :=
  let mine :=
    filter (fun c => Models.eq_opt_Z (Models.conv_user_id c) uid) rows in
  let oldest_first := Py.sorted_by Models.timestamp mine in
  let window := skipn (List.length oldest_first - max_turns) oldest_first in
  flat_map (fun c => [AgentCore.user_entry c; AgentCore.assistant_entry c])
           window.

Definition fresh_agent (max_context : Z) : Agent :=
  mkAgent None None None max_context.

Definition fresh_world (max_context : Z) : World :=
  mkWorld (fresh_agent max_context) Models.empty_db [] 0.

Definition alice : Models.User :=
  Models.mkUser 1 "42" (Some "alice") None None "UTC" (Py.JObj []) 0.

Definition turn1 : Models.Conversation :=
  Models.mkConversation 1 (Some 1) "hi" "hello" 10.

Definition turn2 : Models.Conversation :=
  Models.mkConversation 2 (Some 1) "bye" "goodbye" 20.

(** A store holding one user and two turns of hers. *)
Definition two_turns_db : Models.DB :=
  Models.mkDB [alice] [turn1; turn2] [] [] [].

Definition two_turns_world : World :=
  mkWorld (fresh_agent 100) two_turns_db [] 30.

(** A language-model service that is down, and a JSON parser that rejects
    everything. *)
Definition env_down : Env :=
  mkEnv (fun _ _ => Raise (Exception "APIConnectionError"))
        (fun _ => Raise (Exception "JSONDecodeError")).

(** A service answering every request with the same text, and a parser that
    rejects it. *)
Definition env_garbled : Env :=
  mkEnv (fun _ _ => Ok "Sure! Here is the analysis.")
        (fun _ => Raise (Exception "JSONDecodeError")).

(** A service that answers the classification request (the one with a
    500-token budget) and fails on every other request, with a parser that
    reads the answer as a classification flagged as requiring context. *)
Definition env_flagged : Env :=
  mkEnv (fun _ r =>
           if req_max_tokens r =? 500 then Ok "classification"
           else Raise (Exception "APIConnectionError"))
        (fun _ => Ok (Py.JObj [("requires_context", Py.JBool true)])).

(** A service answering every request with "Sure.", and a parser that
    reads the answer as a JSON list, which is no classification. *)
Definition env_list_intent : Env :=
  mkEnv (fun _ _ => Ok "Sure.") (fun _ => Ok (Py.JArr [])).





(** A plugin whose [can_handle] raises. *)
Definition broken_plugin : PluginBase.Plugin :=
  PluginBase.mkPlugin "Broken" 10 []
    (fun _ _ => Raise (Exception "TypeError"))
    (fun _ _ => ret (Some "unreachable")).

(** A plugin that claims every message and answers [reply]. *)
Definition constant_plugin (pname : string) (prio : Z)
    (reply : option string) : PluginBase.Plugin :=
  PluginBase.mkPlugin pname prio [] (fun _ _ => Ok true)
    (fun _ _ => ret reply).

(** A plugin whose [handle] raises. *)
Definition failing_plugin (pname : string) (prio : Z) : PluginBase.Plugin :=
  PluginBase.mkPlugin pname prio [] (fun _ _ => Ok true)
    (fun _ _ => raise (Exception "RuntimeError")).

(** A world in which user 1 is current with one turn in her context, and
    the store also knows a user 2 under transport id "43". *)
Definition bob : Models.User :=
  Models.mkUser 2 "43" (Some "bob") None None "UTC" (Py.JObj []) 5.

Definition shared_world (schedule : list bool) : World :=
  mkWorld
    (mkAgent (Some 1) (Some (Database.user_data alice))
             (Some (mkContext (Some (Database.user_data alice))
                      [mkEntry "user" "my pin is 1234" 10;
                       mkEntry "assistant" "Noted." 10]))
             100)
    (Models.mkDB [alice; bob]
       [Models.mkConversation 1 (Some 1) "my pin is 1234" "Noted." 10]
       [] [] [])
    schedule 100.

(** A world with user 1 current and an empty loaded context. *)
Definition alice_world (max_context : Z) (schedule : list bool) : World :=
  mkWorld
    (mkAgent (Some 1) (Some (Database.user_data alice))
             (Some (mkContext (Some (Database.user_data alice)) []))
             max_context)
    (Models.mkDB [alice] [] [] [] []) schedule 100.

(** A calendar in which every instant lies in November 2026; the report
    renderer is never reached in the samples. *)
Definition sample_calendar : BasicFinancial.Calendar :=
  BasicFinancial.mkCalendar (fun t => t) (fun t => t) (fun t => t)
    (fun t n => t - n) (fun _ _ => true) (fun _ _ => "November 2026")
    (fun _ period => period).

(** ** Python built-ins: properties *)

Lemma lower_sample : Py.lower "I Spent $25 on Groceries" = "i spent $25 on groceries".
Proof. reflexivity. Qed.

Lemma contains_sample :
  Py.contains "spent" "i spent $25 on groceries" = true
  /\ Py.contains "paid" "i spent $25 on groceries" = false
  /\ Py.contains EmptyString "abc" = true.
Proof. repeat split. Qed.

Lemma strip_sample :
  Py.strip ("  a b " ++ Py.nl)%string = "a b".
Proof. reflexivity. Qed.

Lemma replace_sample :
  Py.replace "```" EmptyString "```{}```" = "{}"
  /\ Py.replace "aa" "b" "aaaaa" = "bba".
Proof. split; reflexivity. Qed.

Lemma slice_from_sample :
  Py.slice_from (-2) [1; 2; 3] = [2; 3]
  /\ Py.slice_from (-5) [1; 2; 3] = [1; 2; 3]
  /\ Py.slice_from (- 0 * 2) [1; 2; 3] = [1; 2; 3]
  /\ Py.slice_from 1 [1; 2; 3] = [2; 3].
Proof. repeat split. Qed.

Lemma sorted_by_sample :
  Py.sorted_by fst [(50, "b"); (10, "a"); (50, "c"); (10, "d")]
  = [(10, "a"); (10, "d"); (50, "b"); (50, "c")].
Proof. reflexivity. Qed.

Section SortedFacts.
Context {A : Type} (key : A -> Z).

Let le_key (x y : A) : Prop := key x <= key y.

Lemma insert_by_perm (x : A) (l : list A) :
  Permutation (Py.insert_by key x l) (x :: l).
Proof.
  induction l as [|y t IH]; simpl.
  - apply Permutation_refl.
  - destruct (key x <=? key y).
    + apply Permutation_refl.
    + eapply perm_trans; [apply perm_skip, IH | apply perm_swap].
Qed.

Lemma sorted_by_perm (l : list A) : Permutation (Py.sorted_by key l) l.
Proof.
  induction l as [|x t IH]; simpl.
  - constructor.
  - eapply perm_trans; [apply insert_by_perm | now apply perm_skip].
Qed.

Lemma insert_by_hdrel (a x : A) (l : list A) :
  key a <= key x -> HdRel le_key a l -> HdRel le_key a (Py.insert_by key x l).
Proof.
  intros Hax Hal. destruct l as [|y t]; simpl.
  - now constructor.
  - destruct (key x <=? key y); constructor; try assumption.
    now inversion Hal.
Qed.

Lemma insert_by_sorted (x : A) (l : list A) :
  Sorted le_key l -> Sorted le_key (Py.insert_by key x l).
Proof.
  induction 1 as [|y t Hs IH Hhd]; simpl.
  - repeat constructor.
  - destruct (key x <=? key y) eqn:E.
    + apply Z.leb_le in E. constructor; [now constructor | now constructor].
    + apply Z.leb_gt in E. constructor; [exact IH|].
      apply insert_by_hdrel; [unfold le_key; lia | exact Hhd].
Qed.

Lemma sorted_by_sorted (l : list A) : Sorted le_key (Py.sorted_by key l).
Proof.
  induction l as [|x t IH]; simpl; [constructor | now apply insert_by_sorted].
Qed.

(** [x] only passes elements with a smaller key, so it stays in front of
    every element of [l] with its own key. *)
Lemma insert_by_filter (k : Z) (x : A) (l : list A) :
  filter (fun y => key y =? k) (Py.insert_by key x l)
  = filter (fun y => key y =? k) (x :: l).
Proof.
  induction l as [|y t IH]; simpl; [reflexivity|].
  destruct (key x <=? key y) eqn:E; [reflexivity|].
  apply Z.leb_gt in E. simpl. simpl in IH. rewrite IH.
  destruct (key x =? k) eqn:Ex, (key y =? k) eqn:Ey; try reflexivity.
  apply Z.eqb_eq in Ex, Ey. lia.
Qed.

(** [sorted] is stable: elements with one key keep their input order. *)
Lemma sorted_by_stable (k : Z) (l : list A) :
  filter (fun y => key y =? k) (Py.sorted_by key l)
  = filter (fun y => key y =? k) l.
Proof.
  induction l as [|x t IH]; simpl; [reflexivity|].
  rewrite insert_by_filter. simpl. now rewrite IH.
Qed.

End SortedFacts.

(** A dict built from items with distinct keys holds exactly these items,
    in their order. *)
Lemma dict_set_fresh {V : Type} (d : list (string * V)) (k : string) (v : V) :
  ~ In k (Py.keys d) -> Py.dict_set d k v = d ++ [(k, v)].
Proof.
  induction d as [|[k' v'] t IH]; simpl; intros Hk; [reflexivity|].
  destruct (String.eqb k' k) eqn:E.
  - apply String.eqb_eq in E. tauto.
  - rewrite IH by tauto. reflexivity.
Qed.

Lemma dict_of_items_from {V : Type} (items acc : list (string * V)) :
  NoDup (Py.keys (acc ++ items)) ->
  fold_left (fun d kv => Py.dict_set d (fst kv) (snd kv)) items acc
  = acc ++ items.
Proof.
  revert acc. induction items as [|[k v] t IH]; intros acc Hnd; simpl.
  - now rewrite app_nil_r.
  - assert (Hfresh : ~ In k (Py.keys acc)).
    { unfold Py.keys in *. rewrite map_app in Hnd. simpl in Hnd.
      apply NoDup_remove_2 in Hnd. intros Hin. apply Hnd.
      apply in_or_app. now left. }
    rewrite dict_set_fresh by exact Hfresh.
    rewrite IH; rewrite <- app_assoc; [reflexivity | exact Hnd].
Qed.

Lemma dict_of_items_nodup {V : Type} (items : list (string * V)) :
  NoDup (Py.keys items) -> Py.dict_of_items items = items.
Proof.
  intros Hnd. unfold Py.dict_of_items.
  now rewrite dict_of_items_from.
Qed.

(** [l[-n:]] keeps at most [n] elements when [n] is positive. *)
Lemma slice_from_neg_length {A : Type} (n : Z) (l : list A) :
  0 < n -> Z.of_nat (List.length (Py.slice_from (- n) l))
           = Z.min n (Z.of_nat (List.length l)).
Proof.
  intros Hn. unfold Py.slice_from.
  destruct (- n <? 0) eqn:E; [|apply Z.ltb_ge in E; lia].
  rewrite length_skipn. lia.
Qed.

(** [l[-0:]] is the whole list. *)
Lemma slice_from_zero {A : Type} (l : list A) : Py.slice_from (- 0) l = l.
Proof.
  unfold Py.slice_from. simpl. destruct (Z.of_nat (List.length l)); reflexivity.
Qed.

(** ** Dispatch *)

Section DispatchFacts.
Import PluginBase PluginManager.
Variables (message : string) (context : option Context).

(** What one turn of the loop does, by the answer of [can_handle] and the
    outcome of [handle]. *)
Lemma try_plugin_unclaimed (p : Plugin) (w : World) :
  can_handle p message context = Ok false ->
  try_plugin p message context w = (Ok None, w).
Proof. intros H. unfold try_plugin, bind, lift_result. now rewrite H. Qed.

Lemma try_plugin_claimed (p : Plugin) (w : World) :
  can_handle p message context = Ok true ->
  try_plugin p message context w =
    match handle p message context w with
    | (Ok (Some s), w') =>
        if String.eqb s EmptyString then (Ok None, w') else (Ok (Some s), w')
    | (Ok None, w') => (Ok None, w')
    | (Raise _, w') => (Ok None, w')
    end.
Proof.
  intros H. unfold try_plugin, bind, lift_result, try_except. rewrite H.
  simpl. destruct (handle p message context w) as [[[s|]|e] w']; simpl;
    try reflexivity.
  destruct (String.eqb s EmptyString); reflexivity.
Qed.

Lemma try_plugin_raises (p : Plugin) (w : World) (e : exn) :
  can_handle p message context = Raise e ->
  try_plugin p message context w = (Raise e, w).
Proof. intros H. unfold try_plugin, bind, lift_result. now rewrite H. Qed.

(** An exception of [can_handle] leaves [route_message]: the plugins after
    it are not tried. *)
Lemma route_message_can_handle_raises (n : string) (p : Plugin)
    (rest : Plugins) (w : World) (e : exn) :
  can_handle p message context = Raise e ->
  route_message ((n, p) :: rest) message context w = (Raise e, w).
Proof.
  intros H. simpl. unfold bind. now rewrite (try_plugin_raises p w e H).
Qed.

(** Every run the specification describes is the run of the code. *)
Lemma Dispatch_route (plugins : Plugins) (w : World) (r : option string)
    (w' : World) :
  Dispatch message context plugins w r w' ->
  route_message plugins message context w = (Ok r, w').
Proof.
  induction 1 as [w | n p rest w r w' Hc _ IH | n p rest w s w' Hc Hh Hs
                 | n p rest w w1 r w' Hc Hh _ IH
                 | n p rest w w1 r w' Hc Hh _ IH
                 | n p rest w e w1 r w' Hc Hh _ IH]; simpl; unfold bind.
  - reflexivity.
  - rewrite try_plugin_unclaimed by exact Hc. exact IH.
  - rewrite try_plugin_claimed by exact Hc. rewrite Hh.
    apply String.eqb_neq in Hs. now rewrite Hs.
  - rewrite try_plugin_claimed by exact Hc. rewrite Hh. exact IH.
  - rewrite try_plugin_claimed by exact Hc. rewrite Hh. simpl. exact IH.
  - rewrite try_plugin_claimed by exact Hc. rewrite Hh. exact IH.
Qed.

(** When no [can_handle] raises, the code returns, and its run is one the
    specification describes. *)
Lemma route_Dispatch (plugins : Plugins) :
  (forall n p, In (n, p) plugins ->
     exists b, can_handle p message context = Ok b) ->
  forall w, exists r w',
    route_message plugins message context w = (Ok r, w')
    /\ Dispatch message context plugins w r w'.
Proof.
  induction plugins as [|[n p] rest IH]; intros Hok w.
  - exists None, w. split; [reflexivity | constructor].
  - assert (Hrest : forall n' p', In (n', p') rest ->
              exists b, can_handle p' message context = Ok b)
      by (intros n' p' Hin; apply (Hok n' p'); now right).
    destruct (Hok n p (or_introl eq_refl)) as [[|] Hc].
    + destruct (handle p message context w) as [[[s|]|e] w1] eqn:Hh.
      * destruct (String.eqb s EmptyString) eqn:Es.
        -- apply String.eqb_eq in Es. subst s.
           destruct (IH Hrest w1) as (r & w' & Hr & Hd).
           exists r, w'. split; [|eapply Dispatch_empty; eassumption].
           apply Dispatch_route. eapply Dispatch_empty; eassumption.
        -- apply String.eqb_neq in Es.
           exists (Some s), w1.
           assert (Hd : Dispatch message context ((n, p) :: rest) w (Some s) w1)
             by (eapply Dispatch_answer; eassumption).
           split; [now apply Dispatch_route | exact Hd].
      * destruct (IH Hrest w1) as (r & w' & Hr & Hd).
        exists r, w'. split; [|eapply Dispatch_null; eassumption].
        apply Dispatch_route. eapply Dispatch_null; eassumption.
      * destruct (IH Hrest w1) as (r & w' & Hr & Hd).
        exists r, w'. split; [|eapply Dispatch_failed; eassumption].
        apply Dispatch_route. eapply Dispatch_failed; eassumption.
    + destruct (IH Hrest w) as (r & w' & Hr & Hd).
      exists r, w'. split; [|eapply Dispatch_unclaimed; eassumption].
      apply Dispatch_route. eapply Dispatch_unclaimed; eassumption.
Qed.

End DispatchFacts.

(** The order [load_plugins] leaves: for a dict (distinct keys) it is the
    stable sort of the registered items. *)
Lemma sort_plugins_sorted_by (plugins : PluginManager.Plugins) :
  NoDup (Py.keys plugins) ->
  PluginManager.sort_plugins plugins
  = Py.sorted_by (fun x => PluginBase.priority (snd x)) plugins.
Proof.
  intros Hnd. unfold PluginManager.sort_plugins.
  apply dict_of_items_nodup.
  unfold Py.keys. eapply Permutation_NoDup; [|exact Hnd].
  apply Permutation_map, Permutation_sym, sorted_by_perm.
Qed.

(** Two registered handlers of the specification's example, registered
    with the lower priority last. *)
Lemma sample_registry_order :
  PluginManager.sort_plugins
    [("b", constant_plugin "B" 50 (Some "x"));
     ("a", constant_plugin "A" 10 None)]
  = [("a", constant_plugin "A" 10 None);
     ("b", constant_plugin "B" 50 (Some "x"))].
Proof. reflexivity. Qed.

(** C2.  For a registry (a dict, so with distinct names) none of whose
    [can_handle] raises on the message: the order left by [load_plugins]
    is ascending in priority, holds the registered handlers and keeps
    registration order among equal priorities; [route_message] over it
    returns, and its run is the scan the specification describes (first
    non-empty answer wins and ends the scan, a claimed message answered
    with null or the empty string lets the scan go on, no answer gives
    null); every such scan is the run of the code. *)
Theorem route_message_first_nonempty_response
    (plugins : PluginManager.Plugins) (message : string)
    (context : option Context) (w : World) :
  NoDup (Py.keys plugins) ->
  (forall n p, In (n, p) plugins ->
     exists b, PluginBase.can_handle p message context = Ok b) ->
  let order := PluginManager.sort_plugins plugins in
  Sorted (fun a b => PluginBase.priority (snd a) <= PluginBase.priority (snd b))
         order
  /\ Permutation order plugins
  /\ (forall k,
        filter (fun x => PluginBase.priority (snd x) =? k) order
        = filter (fun x => PluginBase.priority (snd x) =? k) plugins)
  /\ (exists r w',
        PluginManager.route_message order message context w = (Ok r, w')
        /\ PluginManager.Dispatch message context order w r w')
  /\ (forall r w',
        PluginManager.Dispatch message context order w r w' ->
        PluginManager.route_message order message context w = (Ok r, w')).
Proof.
  intros Hnd Hok order. unfold order.
  rewrite (sort_plugins_sorted_by plugins Hnd).
  split; [apply sorted_by_sorted|].
  split; [apply sorted_by_perm|].
  split; [intros k; apply sorted_by_stable|].
  split.
  - apply route_Dispatch. intros n p Hin. apply (Hok n p).
    eapply Permutation_in; [apply sorted_by_perm | exact Hin].
  - intros r w'. apply Dispatch_route.
Qed.

(** The specification's example: A (priority 10) answers null, B (priority
    50) answers "x", both claim the message; dispatch returns "x". *)
Lemma route_message_first_nonempty_response_witness :
  let plugins := [("b", constant_plugin "B" 50 (Some "x"));
                  ("a", constant_plugin "A" 10 None)] in
  let order := PluginManager.sort_plugins plugins in
  PluginManager.route_message order "hello" None (fresh_world 100)
    = (Ok (Some "x"), fresh_world 100)
  /\ exists r w',
       PluginManager.route_message order "hello" None (fresh_world 100)
         = (Ok r, w')
       /\ PluginManager.Dispatch "hello" None order (fresh_world 100) r w'.
Proof.
  split; [reflexivity|].
  refine (proj1 (proj2 (proj2 (proj2
    (route_message_first_nonempty_response
       [("b", constant_plugin "B" 50 (Some "x"));
        ("a", constant_plugin "A" 10 None)]
       "hello" None (fresh_world 100) _ _))))).
  - repeat constructor; simpl; intuition discriminate.
  - intros n p [H|[H|[]]]; inversion H; subst; exists true; reflexivity.
Defined.

(** An exception inside [handle] is caught and the scan goes on. *)
Lemma route_message_handle_exception_caught :
  outcome
    (PluginManager.route_message
       [("failing", failing_plugin "Failing" 10);
        ("conversation", constant_plugin "Conversation" 999 (Some "hi"))]
       "hello" None)
    (fresh_world 100)
  = Ok (Some "hi").
Proof. reflexivity. Qed.

(** C3.  At a registry whose first handler raises in [can_handle], the
    exception leaves [route_message]; the fallback handler behind it, which
    would have answered, is not tried. *)
Theorem route_message_can_handle_exception_propagates :
  outcome
    (PluginManager.route_message
       [("broken", broken_plugin);
        ("conversation", constant_plugin "Conversation" 999 (Some "hi"))]
       "hello" None)
    (fresh_world 100)
  = Raise (Exception "TypeError")
  /\ outcome
       (PluginManager.route_message
          [("conversation", constant_plugin "Conversation" 999 (Some "hi"))]
          "hello" None)
       (fresh_world 100)
     = Ok (Some "hi").
Proof. split; reflexivity. Qed.

(** ** The language-model client *)

Section AIBrainFacts.
Variable env : Env.

(** What a call of the client leaves: the answer of the service at the
    time of the call, and the clock one reading later. *)
Lemma llm_call_run (r : Request) (w : World) :
  llm_call env r w =
    (llm env (clock w) r,
     mkWorld (agent w) (db w) (faults w) (clock w + 1)).
Proof.
  unfold llm_call, bind, utcnow, lift_result, ret, raise.
  destruct (llm env (clock w) r); reflexivity.
Qed.

(** [analyze_intent] returns whatever the service and the parser do. *)
Lemma analyze_intent_total (message : string) (w : World) :
  exists intent,
    AIBrain.analyze_intent env message w =
      (Ok intent, mkWorld (agent w) (db w) (faults w) (clock w + 1)).
Proof.
  unfold AIBrain.analyze_intent, try_except, bind.
  rewrite llm_call_run.
  destruct (llm env (clock w) (AIBrain.intent_request message)) as [text|e].
  - unfold lift_result, ret, raise.
    destruct (json_loads env (AIBrain.clean_json_text text));
      eexists; reflexivity.
  - eexists; reflexivity.
Qed.

(** [summarize_conversation] with a failing service. *)
Lemma summarize_conversation_fallback (messages : list (string * string))
    (w : World) (e : exn) :
  llm env (clock w) (AIBrain.summary_request messages) = Raise e ->
  AIBrain.summarize_conversation env messages w =
    (Ok AIBrain.summary_fallback,
     mkWorld (agent w) (db w) (faults w) (clock w + 1)).
Proof.
  intros H. unfold AIBrain.summarize_conversation, try_except, bind.
  rewrite llm_call_run, H. reflexivity.
Qed.

(** [think] never raises. *)
Lemma think_total (message : string) (context : option Context)
    (names : list string) (w : World) :
  exists text,
    AIBrain.think env message context names w =
      (Ok text, mkWorld (agent w) (db w) (faults w) (clock w + 1)).
Proof.
  unfold AIBrain.think, try_except. rewrite llm_call_run.
  match goal with |- context [llm env ?t ?r] => destruct (llm env t r) end;
    eexists; reflexivity.
Qed.

End AIBrainFacts.

(** C8.  When the call of the language-model client made for intent
    classification raises, or returns a text [json.loads] rejects,
    [analyze_intent] returns the default classification: intent "general",
    action "query", no entities, urgency "medium", no context required. *)
Theorem analyze_intent_fallback (env : Env) (message : string) (w : World) :
  (exists e, llm env (clock w) (AIBrain.intent_request message) = Raise e)
  \/ (exists text e,
        llm env (clock w) (AIBrain.intent_request message) = Ok text
        /\ json_loads env (AIBrain.clean_json_text text) = Raise e) ->
  outcome (AIBrain.analyze_intent env message) w
  = Ok (Py.JObj [("primary_intent", Py.JStr "general");
                 ("action_type", Py.JStr "query");
                 ("entities", Py.JArr []);
                 ("urgency", Py.JStr "medium");
                 ("requires_context", Py.JBool false)]).
Proof.
  intros H. unfold outcome, AIBrain.analyze_intent, try_except, bind.
  rewrite llm_call_run.
  destruct H as [[e H] | (text & e & H & Hj)]; rewrite H; simpl.
  - reflexivity.
  - rewrite Hj. reflexivity.
Qed.

(** Both failures, at a service that is down and at one whose answer does
    not parse. *)
Lemma analyze_intent_fallback_witness :
  outcome (AIBrain.analyze_intent env_down "hello") (fresh_world 100)
    = Ok AIBrain.default_intent
  /\ outcome (AIBrain.analyze_intent env_garbled "hello") (fresh_world 100)
    = Ok AIBrain.default_intent.
Proof.
  split.
  - apply (analyze_intent_fallback env_down "hello" (fresh_world 100)).
    left. eexists. reflexivity.
  - apply (analyze_intent_fallback env_garbled "hello" (fresh_world 100)).
    right. do 2 eexists. split; reflexivity.
Defined.

(** ** The orchestrator *)

(** A session that is not scheduled to fail runs its body. *)
Lemma with_db_run {A : Type} (body : M A) (w : World) :
  hd false (faults w) = false ->
  Database.with_db body w =
    match body (mkWorld (agent w) (db w) (tl (faults w)) (clock w)) with
    | (Ok a, w') => (Ok a, w')
    | (Raise e, w') =>
        (Raise e, mkWorld (agent w') (db w) (faults w') (clock w'))
    end.
Proof.
  intros H. unfold Database.with_db.
  destruct (faults w) as [|[|] rest]; simpl in *;
    [reflexivity | discriminate | reflexivity].
Qed.

(** A session scheduled to fail raises and changes nothing else. *)
Lemma with_db_fault {A : Type} (body : M A) (w : World) (rest : list bool) :
  faults w = true :: rest ->
  Database.with_db body w =
    (Raise (Exception "OperationalError"),
     mkWorld (agent w) (db w) rest (clock w)).
Proof. intros H. unfold Database.with_db. now rewrite H. Qed.

Lemma no_faults_hd (w : World) : no_faults w -> hd false (faults w) = false.
Proof.
  unfold no_faults. destruct (faults w) as [|b rest]; simpl;
    [reflexivity | now inversion 1].
Qed.

Lemma no_faults_tl (l : list bool) :
  Forall (fun b => b = false) l -> Forall (fun b => b = false) (tl l).
Proof. destruct l; simpl; [auto | now inversion 1]. Qed.

(** [_extract_memory] never raises. *)
Lemma extract_memory_total (env : Env) (message response : string)
    (w : World) :
  exists w', AgentCore._extract_memory env message response w = (Ok tt, w').
Proof.
  unfold AgentCore._extract_memory, try_except.
  match goal with |- context [match ?m w with _ => _ end] =>
    destruct (m w) as [[[]|e] w'] end; eexists; reflexivity.
Qed.

(** C10.  When the summarization call fails and the storage session does
    not, [_extract_memory] stores a memory for the current user whose
    content is the fallback text "Unable to summarize conversation.": the
    text has 33 characters, more than the threshold of 20. *)
Theorem failed_summary_is_stored_as_memory (env : Env)
    (message response : string) (w : World) (e : exn) :
  llm env (clock w)
      (AIBrain.summary_request [("user", message); ("assistant", response)])
    = Raise e ->
  hd false (faults w) = false ->
  String.length AIBrain.summary_fallback = 33%nat
  /\ AgentCore._extract_memory env message response w =
       (Ok tt,
        mkWorld (agent w)
          (AgentCore.add_memory
             (Models.mkMemory
                (Models.next_id Models.mem_id (Models.memories (db w)))
                (current_user_id (agent w)) "general"
                "Unable to summarize conversation." (1 # 2)
                (clock w + 1) (clock w + 2) 0)
             (db w))
          (tl (faults w)) (clock w + 3)).
Proof.
  intros Hllm Hf. split; [reflexivity|].
  unfold AgentCore._extract_memory, try_except, bind.
  rewrite (summarize_conversation_fallback env _ w e Hllm).
  cbv beta iota.
  change (20 <? Z.of_nat (String.length AIBrain.summary_fallback)) with true.
  cbv beta iota.
  rewrite with_db_run by exact Hf.
  unfold bind, get_agent, utcnow, get_db_state, put_db_state,
    AgentCore.memory_row. simpl.
  replace (clock w + 1 + 1) with (clock w + 2) by lia.
  replace (clock w + 2 + 1) with (clock w + 3) by lia.
  reflexivity.
Qed.

(** The same on a whole turn: the classification flags the turn, the
    summarization call fails, and the turn leaves one memory holding the
    fallback text. *)
Lemma failed_summary_is_stored_as_memory_witness :
  map Models.content
      (Models.memories
         (db (final (AgentCore._extract_memory env_down "my cat is Tom" "Noted.")
                    (alice_world 100 []))))
    = ["Unable to summarize conversation."]
  /\ map Models.content
      (Models.memories
         (db (final (AgentCore.process_message env_flagged [] "my cat is Tom")
                    (alice_world 100 []))))
    = ["Unable to summarize conversation."].
Proof.
  split; [|reflexivity].
  unfold final.
  rewrite (proj2 (failed_summary_is_stored_as_memory env_down
                    "my cat is Tom" "Noted." (alice_world 100 [])
                    (Exception "APIConnectionError") eq_refl eq_refl)).
  reflexivity.
Defined.

(** C5.  [process_message] always returns a string: without a current user
    it returns the guidance text and changes nothing; with one, an
    exception raised anywhere in the processing steps is turned into the
    fixed error text. *)
Theorem process_message_never_raises (env : Env)
    (plugins : PluginManager.Plugins) (message : string) (w : World) :
  (exists s w', AgentCore.process_message env plugins message w = (Ok s, w'))
  /\ (Py.truthy_int (current_user_id (agent w)) = false ->
      AgentCore.process_message env plugins message w
      = (Ok "Please set user context first", w))
  /\ (Py.truthy_int (current_user_id (agent w)) = true ->
      forall e w',
        AgentCore.process_steps env plugins message w = (Raise e, w') ->
        AgentCore.process_message env plugins message w
        = (Ok "I encountered an error processing that. Please try again.",
           w')).
Proof.
  unfold AgentCore.process_message, bind, get_agent, try_except.
  destruct (Py.truthy_int (current_user_id (agent w))); simpl.
  - split; [|split; [discriminate|]].
    + destruct (AgentCore.process_steps env plugins message w) as [[s|e] w'];
        do 2 eexists; reflexivity.
    + intros _ e w' H. rewrite H. reflexivity.
  - split; [do 2 eexists; reflexivity|].
    split; [reflexivity | discriminate].
Qed.

(** A turn without a user; a turn whose storage session fails; a turn in
    which a plugin's [can_handle] raises; a turn before any context has
    been loaded. *)
Lemma process_message_never_raises_witness :
  outcome (AgentCore.process_message env_down [] "hi") (fresh_world 100)
    = Ok AgentCore.no_user_reply
  /\ outcome (AgentCore.process_message env_down [] "hi")
             (alice_world 100 [true])
    = Ok AgentCore.error_reply
  /\ outcome (AgentCore.process_message env_down [("broken", broken_plugin)]
                "hi")
             (alice_world 100 [])
    = Ok AgentCore.error_reply
  /\ outcome (AgentCore.process_message env_down [] "hi")
             (as_user (Some 1) (fresh_world 100))
    = Ok AgentCore.error_reply
  /\ outcome (AgentCore.process_message env_down [] "hi") (alice_world 100 [])
    = Ok AIBrain.think_apology.
Proof.
  split.
  - unfold outcome.
    rewrite (proj1 (proj2 (process_message_never_raises env_down [] "hi"
                             (fresh_world 100))) eq_refl).
    reflexivity.
  - split.
    + unfold outcome.
      erewrite (proj2 (proj2 (process_message_never_raises env_down [] "hi"
                                (alice_world 100 [true]))) eq_refl);
        reflexivity.
    + repeat split; reflexivity.
Defined.

(** ** Users *)

Section UserFacts.
Variable tid : string.

Let is_tid (u : Models.User) : bool := String.eqb (Models.telegram_id u) tid.

(** The row a first contact creates. *)
Let new_user (uname fname lname : option string) (w : World) : Models.User :=
  Models.mkUser (Models.next_id Models.user_id_ (Models.users (db w))) tid
    uname fname lname "UTC" (Py.JObj []) (clock w).

Lemma get_or_create_user_known (uname fname lname : option string)
    (w : World) (u : Models.User) :
  hd false (faults w) = false ->
  Models.first is_tid (Models.users (db w)) = Some u ->
  Database.get_or_create_user tid uname fname lname w =
    (Ok (Database.user_data u),
     mkWorld (agent w) (db w) (tl (faults w)) (clock w)).
Proof.
  intros Hf Hu. unfold Database.get_or_create_user.
  rewrite with_db_run by exact Hf.
  unfold bind, get_db_state. simpl. fold is_tid. rewrite Hu. reflexivity.
Qed.

Lemma get_or_create_user_new (uname fname lname : option string) (w : World) :
  hd false (faults w) = false ->
  Models.first is_tid (Models.users (db w)) = None ->
  Database.get_or_create_user tid uname fname lname w =
    (Ok (Database.user_data (new_user uname fname lname w)),
     mkWorld (agent w) (Database.add_user (new_user uname fname lname w) (db w))
             (tl (faults w)) (clock w + 1)).
Proof.
  intros Hf Hu. unfold Database.get_or_create_user.
  rewrite with_db_run by exact Hf.
  unfold bind, get_db_state. simpl. fold is_tid. rewrite Hu. reflexivity.
Qed.

(** What [_load_conversation_context] installs. *)
Lemma load_conversation_context_run (w : World) :
  hd false (faults w) = false ->
  AgentCore._load_conversation_context w =
    (Ok tt,
     mkWorld
       (AgentCore.with_context (agent w)
          (mkContext (current_user (agent w))
             (map AgentCore.user_entry
                  (rev (AgentCore.recent_conversations (agent w) (db w)))
              ++ map AgentCore.assistant_entry
                  (rev (AgentCore.recent_conversations (agent w) (db w))))))
       (db w) (tl (faults w)) (clock w)).
Proof.
  intros Hf. unfold AgentCore._load_conversation_context.
  rewrite with_db_run by exact Hf. reflexivity.
Qed.

Lemma first_app_new {R : Type} (p : R -> bool) (rows : list R) (r : R) :
  Models.first p rows = None -> p r = true ->
  Models.first p (rows ++ [r]) = Some r.
Proof.
  unfold Models.first. induction rows as [|x t IH]; simpl; intros Hn Hp.
  - now rewrite Hp.
  - destruct (p x); [discriminate | now apply IH].
Qed.

Lemma first_none_filter {R : Type} (p : R -> bool) (rows : list R) :
  Models.first p rows = None -> filter p rows = [].
Proof.
  unfold Models.first. induction rows as [|x t IH]; simpl; [reflexivity|].
  destruct (p x); [discriminate | exact IH].
Qed.

Lemma first_some_filter {R : Type} (p : R -> bool) (rows : list R) (r : R) :
  Models.first p rows = Some r -> filter p rows <> [].
Proof.
  unfold Models.first. induction rows as [|x t IH]; simpl; [discriminate|].
  destruct (p x); [discriminate | exact IH].
Qed.

(** [set_user] for a transport id that is registered. *)
Lemma set_user_known (uname fname lname : option string) (w : World)
    (u : Models.User) :
  no_faults w ->
  Models.first is_tid (Models.users (db w)) = Some u ->
  exists w',
    AgentCore.set_user tid uname fname lname w = (Ok tt, w')
    /\ current_user_id (agent w') = Some (Models.user_id_ u)
    /\ db w' = db w
    /\ no_faults w'.
Proof.
  intros Hnf Hu. unfold AgentCore.set_user, bind.
  rewrite (get_or_create_user_known uname fname lname w u)
    by (auto using no_faults_hd).
  unfold get_agent, put_agent. cbv beta iota. simpl agent. simpl db.
  simpl faults. simpl clock.
  assert (Htl : Forall (fun b => b = false) (tl (faults w)))
    by (apply no_faults_tl, Hnf).
  rewrite load_conversation_context_run
    by (apply (no_faults_hd (mkWorld _ _ (tl (faults w)) _)); exact Htl).
  eexists. split; [reflexivity|]. simpl.
  repeat split. apply no_faults_tl, Htl.
Qed.

(** [set_user] at the first contact. *)
Lemma set_user_new (uname fname lname : option string) (w : World) :
  no_faults w ->
  Models.first is_tid (Models.users (db w)) = None ->
  exists w',
    AgentCore.set_user tid uname fname lname w = (Ok tt, w')
    /\ current_user_id (agent w')
       = Some (Models.user_id_ (new_user uname fname lname w))
    /\ Models.users (db w')
       = Models.users (db w) ++ [new_user uname fname lname w]
    /\ no_faults w'.
Proof.
  intros Hnf Hu. unfold AgentCore.set_user, bind.
  rewrite (get_or_create_user_new uname fname lname w)
    by (auto using no_faults_hd).
  unfold get_agent, put_agent. cbv beta iota. simpl agent. simpl db.
  simpl faults. simpl clock.
  assert (Htl : Forall (fun b => b = false) (tl (faults w)))
    by (apply no_faults_tl, Hnf).
  rewrite load_conversation_context_run
    by (apply (no_faults_hd (mkWorld _ _ (tl (faults w)) _)); exact Htl).
  eexists. split; [reflexivity|]. simpl.
  repeat split. apply no_faults_tl, Htl.
Qed.

End UserFacts.

(** C9.  With a working store, two calls of [set_user] with one transport
    id (whatever the name fields) both succeed and make the same user id
    current; the second call leaves the user table as the first left it;
    and an id that was unknown has exactly one user row afterwards. *)
Theorem set_user_idempotent (tid : string)
    (uname1 fname1 lname1 uname2 fname2 lname2 : option string) (w : World) :
  no_faults w ->
  exists w1 w2 uid,
    AgentCore.set_user tid uname1 fname1 lname1 w = (Ok tt, w1)
    /\ AgentCore.set_user tid uname2 fname2 lname2 w1 = (Ok tt, w2)
    /\ current_user_id (agent w1) = Some uid
    /\ current_user_id (agent w2) = Some uid
    /\ Models.users (db w2) = Models.users (db w1)
    /\ (users_with tid w = [] -> List.length (users_with tid w2) = 1%nat)
    /\ (users_with tid w <> [] -> users_with tid w2 = users_with tid w).
Proof.
  intros Hnf.
  destruct (Models.first (fun u => String.eqb (Models.telegram_id u) tid)
                         (Models.users (db w))) as [u|] eqn:Hu.
  - destruct (set_user_known tid uname1 fname1 lname1 w u Hnf Hu)
      as (w1 & H1 & Hid1 & Hdb1 & Hnf1).
    assert (Hu1 : Models.first (fun u => String.eqb (Models.telegram_id u) tid)
                    (Models.users (db w1)) = Some u) by now rewrite Hdb1.
    destruct (set_user_known tid uname2 fname2 lname2 w1 u Hnf1 Hu1)
      as (w2 & H2 & Hid2 & Hdb2 & _).
    exists w1, w2, (Models.user_id_ u).
    repeat split; try assumption.
    + now rewrite Hdb2.
    + intros He. apply first_some_filter in Hu. unfold users_with in He.
      contradiction.
    + intros _. unfold users_with. now rewrite Hdb2, Hdb1.
  - destruct (set_user_new tid uname1 fname1 lname1 w Hnf Hu)
      as (w1 & H1 & Hid1 & Hdb1 & Hnf1).
    set (u := Models.mkUser
                (Models.next_id Models.user_id_ (Models.users (db w))) tid
                uname1 fname1 lname1 "UTC" (Py.JObj []) (clock w)) in *.
    assert (Hu1 : Models.first (fun u => String.eqb (Models.telegram_id u) tid)
                    (Models.users (db w1)) = Some u).
    { rewrite Hdb1. apply first_app_new; [exact Hu|].
      simpl. apply String.eqb_refl. }
    destruct (set_user_known tid uname2 fname2 lname2 w1 u Hnf1 Hu1)
      as (w2 & H2 & Hid2 & Hdb2 & _).
    exists w1, w2, (Models.user_id_ u).
    repeat split; try assumption.
    + now rewrite Hdb2.
    + intros _. unfold users_with. rewrite Hdb2, Hdb1, filter_app.
      rewrite (first_none_filter _ _ Hu). simpl.
      now rewrite String.eqb_refl.
    + intros Hne. apply first_none_filter in Hu. unfold users_with in Hne.
      contradiction.
Qed.

(** A first contact followed by a second call under another display
    name. *)
Lemma set_user_idempotent_witness :
  exists w1 w2 uid,
    AgentCore.set_user "42" (Some "alice") None None (fresh_world 100)
      = (Ok tt, w1)
    /\ AgentCore.set_user "42" (Some "alice_b") None None w1 = (Ok tt, w2)
    /\ current_user_id (agent w1) = Some uid
    /\ current_user_id (agent w2) = Some uid
    /\ Models.users (db w2) = Models.users (db w1)
    /\ List.length (users_with "42" w2) = 1%nat.
Proof.
  destruct (set_user_idempotent "42" (Some "alice") None None
              (Some "alice_b") None None (fresh_world 100)
              (Forall_nil _))
    as (w1 & w2 & uid & H1 & H2 & H3 & H4 & H5 & H6 & _).
  exists w1, w2, uid. repeat split; try assumption.
  apply H6. reflexivity.
Defined.

(** ** Plugin data *)

Section PluginDataFacts.
Import Models PluginBase.

Lemma eq_opt_Z_eq (a b : option Z) : eq_opt_Z a b = true <-> a = b.
Proof.
  destruct a, b; simpl; try (split; congruence).
  rewrite Z.eqb_eq. split; congruence.
Qed.

Lemma matches_triple (pname key : string) (uid : option Z) (r : PluginData) :
  matches pname key uid r = true <->
  plugin_name r = pname /\ data_key r = key /\ pd_user_id r = uid.
Proof.
  unfold matches. rewrite !andb_true_iff, !String.eqb_eq, eq_opt_Z_eq. tauto.
Qed.

(** No row belongs to two triples. *)
Lemma matches_disjoint (pname key pname' key' : string) (uid uid' : option Z)
    (r : PluginData) :
  (pname', key', uid') <> (pname, key, uid) ->
  matches pname key uid r = true -> matches pname' key' uid' r = false.
Proof.
  intros Hne Hm. destruct (matches pname' key' uid' r) eqn:E; [|reflexivity].
  apply matches_triple in Hm, E.
  destruct Hm as (? & ? & ?), E as (? & ? & ?). exfalso. apply Hne. congruence.
Qed.

Lemma matches_set_value (pname key : string) (uid : option Z) (now : Z)
    (value : Py.Json) (r : PluginData) :
  matches pname key uid (set_value now value r) = matches pname key uid r.
Proof. reflexivity. Qed.

Lemma first_update_first (p : PluginData -> bool)
    (f : PluginData -> PluginData) (rows : list PluginData) :
  (forall r, p (f r) = p r) ->
  first p (update_first p f rows) = option_map f (first p rows).
Proof.
  intros Hp. unfold first. induction rows as [|r t IH]; simpl; [reflexivity|].
  destruct (p r) eqn:E; simpl.
  - now rewrite Hp, E.
  - now rewrite E.
Qed.

Lemma first_update_first_other (p q : PluginData -> bool)
    (f : PluginData -> PluginData) (rows : list PluginData) :
  (forall r, p r = true -> q r = false) -> (forall r, q (f r) = q r) ->
  first q (update_first p f rows) = first q rows.
Proof.
  intros Hpq Hq. unfold first. induction rows as [|r t IH]; simpl;
    [reflexivity|].
  destruct (p r) eqn:E; simpl.
  - rewrite Hq, (Hpq r E). reflexivity.
  - destruct (q r); [reflexivity | exact IH].
Qed.

Lemma first_app_other {R : Type} (q : R -> bool) (rows : list R) (r : R) :
  q r = false -> first q (rows ++ [r]) = first q rows.
Proof.
  intros Hq. unfold first. induction rows as [|x t IH]; simpl.
  - now rewrite Hq.
  - destruct (q x); [reflexivity | exact IH].
Qed.

(** After a store the first row of the triple holds the value. *)
Lemma stored_table_same (pname key : string) (uid : option Z) (now : Z)
    (value : Py.Json) (rows : list PluginData) :
  option_map data_value
    (first (matches pname key uid) (stored_table pname key uid now value rows))
  = Some value.
Proof.
  unfold stored_table.
  destruct (first (matches pname key uid) rows) as [r|] eqn:E.
  - rewrite first_update_first by (intros; apply matches_set_value).
    rewrite E. reflexivity.
  - rewrite (first_app_new _ _ _ E); [reflexivity|].
    apply matches_triple. simpl. auto.
Qed.

(** A store does not touch what the other triples see. *)
Lemma stored_table_other (pname key pname' key' : string)
    (uid uid' : option Z) (now : Z) (value : Py.Json)
    (rows : list PluginData) :
  (pname', key', uid') <> (pname, key, uid) ->
  first (matches pname' key' uid') (stored_table pname key uid now value rows)
  = first (matches pname' key' uid') rows.
Proof.
  intros Hne. unfold stored_table.
  destruct (first (matches pname key uid) rows) as [r|] eqn:E.
  - apply first_update_first_other.
    + intros r0. now apply matches_disjoint.
    + intros r0. apply matches_set_value.
  - apply first_app_other.
    apply (matches_disjoint pname key pname' key' uid uid'); [exact Hne|].
    apply matches_triple. simpl. auto.
Qed.

Lemma store_data_run (pname key : string) (value : Py.Json) (w : World) :
  hd false (faults w) = false ->
  store_data pname key value w =
    (Ok tt,
     mkWorld (agent w)
       (with_plugin_data (db w)
          (stored_table pname key (current_user_id (agent w)) (clock w) value
                        (plugin_data (db w))))
       (tl (faults w)) (clock w + 1)).
Proof.
  intros Hf. unfold store_data. rewrite with_db_run by exact Hf.
  unfold bind, get_db_state, get_agent, utcnow, stored_table. simpl.
  destruct (first (matches pname key (current_user_id (agent w)))
                  (plugin_data (db w))); reflexivity.
Qed.

Lemma load_data_run (pname key : string) (w : World) :
  hd false (faults w) = false ->
  load_data pname key w =
    (Ok match stored_value w pname (current_user_id (agent w)) key with
        | Some v => v
        | None => Py.JNull
        end,
     mkWorld (agent w) (db w) (tl (faults w)) (clock w)).
Proof.
  intros Hf. unfold load_data. rewrite with_db_run by exact Hf.
  unfold bind, get_db_state, get_agent, stored_value. simpl.
  destruct (first (matches pname key (current_user_id (agent w)))
                  (plugin_data (db w))); reflexivity.
Qed.

End PluginDataFacts.

Lemma no_faults_as_user (uid : option Z) (w : World) :
  no_faults w -> no_faults (as_user uid w).
Proof. intros H. exact H. Qed.

(** C7.  With a working store: [store_data] succeeds and a following
    [load_data] of the same plugin, user and key returns the stored value;
    the store changes no [load_data] result of any other (plugin, user,
    key) triple; a later store under the same key by another plugin or for
    another user leaves the value in place; and [load_data] returns
    [None] when the triple has no row. *)
Theorem store_data_load_data_roundtrip (pname key : string)
    (value : Py.Json) (w : World) :
  no_faults w ->
  exists w1,
    PluginBase.store_data pname key value w = (Ok tt, w1)
    /\ outcome (PluginBase.load_data pname key) w1 = Ok value
    /\ (forall pname' key' uid',
          (pname', key', uid') <> (pname, key, current_user_id (agent w)) ->
          outcome (PluginBase.load_data pname' key') (as_user uid' w1)
          = outcome (PluginBase.load_data pname' key') (as_user uid' w))
    /\ (forall pname' uid' value',
          (pname', uid') <> (pname, current_user_id (agent w)) ->
          exists w2,
            PluginBase.store_data pname' key value' (as_user uid' w1)
              = (Ok tt, w2)
            /\ outcome (PluginBase.load_data pname key)
                       (as_user (current_user_id (agent w)) w2)
               = Ok value)
    /\ (stored_value w pname (current_user_id (agent w)) key = None ->
        outcome (PluginBase.load_data pname key) w = Ok Py.JNull).
Proof.
  intros Hnf.
  assert (Hhd : hd false (faults w) = false) by now apply no_faults_hd.
  assert (Htl : Forall (fun b => b = false) (tl (faults w)))
    by (apply no_faults_tl, Hnf).
  assert (Hhd1 : hd false (tl (faults w)) = false).
  { destruct (tl (faults w)); simpl; [reflexivity | now inversion Htl]. }
  eexists. split; [apply store_data_run; exact Hhd|].
  set (uid := current_user_id (agent w)).
  set (table1 := stored_table pname key uid (clock w) value
                   (Models.plugin_data (db w))).
  split; [|split; [|split]].
  - unfold outcome. rewrite load_data_run by exact Hhd1.
    unfold stored_value. simpl. fold uid. fold table1.
    unfold table1. rewrite stored_table_same. reflexivity.
  - intros pname' key' uid' Hne. unfold outcome.
    rewrite !load_data_run by (simpl; assumption).
    unfold stored_value. simpl. fold uid. fold table1.
    unfold table1. rewrite stored_table_other by exact Hne. reflexivity.
  - intros pname' uid' value' Hne.
    eexists. split; [apply store_data_run; exact Hhd1|].
    unfold outcome. rewrite load_data_run.
    + unfold stored_value. simpl. fold uid. fold table1.
      rewrite stored_table_other by (intros E; apply Hne; congruence).
      unfold table1. rewrite stored_table_same. reflexivity.
    + simpl. destruct (tl (faults w)) as [|b [|c rest]]; simpl;
        try reflexivity.
      inversion Htl as [|? ? ? Hrest]; now inversion Hrest.
  - intros Hnone. unfold outcome. rewrite load_data_run by exact Hhd.
    fold uid in Hnone. fold uid. now rewrite Hnone.
Qed.

(** A budget stored by the financial plugin for the current user. *)
Lemma store_data_load_data_roundtrip_witness :
  exists w1,
    PluginBase.store_data "Basic Financial" "budgets"
      (Py.JObj [("food", Py.JInt 300)]) (alice_world 100 [])
      = (Ok tt, w1)
    /\ outcome (PluginBase.load_data "Basic Financial" "budgets") w1
       = Ok (Py.JObj [("food", Py.JInt 300)])
    /\ outcome (PluginBase.load_data "Health Tracker" "budgets") w1
       = Ok Py.JNull
    /\ outcome (PluginBase.load_data "Basic Financial" "budgets")
               (as_user (Some 2) w1)
       = Ok Py.JNull.
Proof.
  destruct (store_data_load_data_roundtrip "Basic Financial" "budgets"
              (Py.JObj [("food", Py.JInt 300)]) (alice_world 100 [])
              (Forall_nil _))
    as (w1 & Hs & Hl & Hother & _ & _).
  exists w1. split; [exact Hs|]. split; [exact Hl|]. split.
  - assert (E : as_user (Some 1) w1 = w1).
    { replace w1 with
        (final (PluginBase.store_data "Basic Financial" "budgets"
                  (Py.JObj [("food", Py.JInt 300)])) (alice_world 100 []))
        by (unfold final; now rewrite Hs).
      reflexivity. }
    rewrite <- E.
    rewrite (Hother "Health Tracker" "budgets" (Some 1)) by discriminate.
    reflexivity.
  - rewrite (Hother "Basic Financial" "budgets" (Some 2)) by discriminate.
    reflexivity.
Defined.

(** ** The conversation history *)

(** After [set_user] for a registered user, the history is the user
    entries of the recent rows followed by their assistant entries. *)
Lemma set_user_history (tid : string) (uname fname lname : option string)
    (w : World) (u : Models.User) :
  no_faults w ->
  Models.first (fun x => String.eqb (Models.telegram_id x) tid)
               (Models.users (db w)) = Some u ->
  let a := AgentCore.with_user (agent w) (Database.user_data u) in
  let rows := rev (AgentCore.recent_conversations a (db w)) in
  current_history (final (AgentCore.set_user tid uname fname lname) w)
  = Some (map AgentCore.user_entry rows ++ map AgentCore.assistant_entry rows).
Proof.
  intros Hnf Hu a rows. unfold final, AgentCore.set_user, bind.
  rewrite (get_or_create_user_known tid uname fname lname w u)
    by (auto using no_faults_hd).
  unfold get_agent, put_agent. cbv beta iota. simpl agent. simpl db.
  simpl faults. simpl clock.
  rewrite load_conversation_context_run; [reflexivity|].
  simpl. pose proof (no_faults_tl _ Hnf) as Htl.
  destruct (tl (faults w)); simpl; [reflexivity | now inversion Htl].
Qed.

(** [_update_context] appends the user entry and then the assistant
    entry of the turn. *)
Lemma update_context_appends_in_turn_order :
  current_history
    (final (AgentCore._update_context "how are you" "fine")
           (alice_world 100 []))
  = Some [mkEntry "user" "how are you" 100; mkEntry "assistant" "fine" 101].
Proof. reflexivity. Qed.

(** C1.  For a user with two persisted turns, "hi"/"hello" at time 10 and
    "bye"/"goodbye" at time 20, [set_user] builds the history user "hi",
    user "bye", assistant "hello", assistant "goodbye"; the chronological
    interleaving of the rows is user "hi", assistant "hello", user "bye",
    assistant "goodbye". *)
Theorem set_user_history_not_interleaved :
  outcome (AgentCore.set_user "42" (Some "alice") None None) two_turns_world
    = Ok tt
  /\ current_history
       (final (AgentCore.set_user "42" (Some "alice") None None)
              two_turns_world)
     = Some [mkEntry "user" "hi" 10; mkEntry "user" "bye" 20;
             mkEntry "assistant" "hello" 10; mkEntry "assistant" "goodbye" 20]
  /\ chronological_history 100 (Some 1) (Models.conversations two_turns_db)
     = [mkEntry "user" "hi" 10; mkEntry "assistant" "hello" 10;
        mkEntry "user" "bye" 20; mkEntry "assistant" "goodbye" 20]
  /\ current_history
       (final (AgentCore.set_user "42" (Some "alice") None None)
              two_turns_world)
     <> Some (chronological_history 100 (Some 1)
                (Models.conversations two_turns_db)).
Proof.
  repeat split; try reflexivity.
  vm_compute. discriminate.
Qed.

(** The truncation keeps at most twice the bound when the bound is
    positive. *)
Lemma truncate_history_length (max_context : Z) (h : list Entry) :
  0 < max_context ->
  Z.of_nat (List.length (AgentCore.truncate_history max_context h))
  <= 2 * max_context.
Proof.
  intros Hm. unfold AgentCore.truncate_history.
  destruct (max_context * 2 <? Z.of_nat (List.length h)) eqn:E.
  - replace (- max_context * 2) with (- (max_context * 2)) by lia.
    rewrite slice_from_neg_length by lia. lia.
  - apply Z.ltb_ge in E. lia.
Qed.

(** With a bound of zero the truncation keeps everything. *)
Lemma truncate_history_zero (h : list Entry) :
  AgentCore.truncate_history 0 h = h.
Proof.
  unfold AgentCore.truncate_history.
  destruct (0 * 2 <? Z.of_nat (List.length h)); [|reflexivity].
  apply (slice_from_zero h).
Qed.

(** A query limited to a non-negative bound returns at most that many
    rows. *)
Lemma limit_length {R : Type} (n : Z) (rows : list R) :
  0 <= n -> Z.of_nat (List.length (AgentCore.limit n rows)) <= n.
Proof.
  intros Hn. unfold AgentCore.limit.
  destruct (n <? 0) eqn:E; [apply Z.ltb_lt in E; lia|].
  rewrite length_firstn. lia.
Qed.

(** For a positive bound the history stays within twice the bound, after
    a context rebuild and after every turn. *)
Lemma history_within_window_for_positive_bound (w : World) :
  0 < max_context_messages (agent w) ->
  (hd false (faults w) = false ->
   forall h,
     current_history (final AgentCore._load_conversation_context w) = Some h ->
     Z.of_nat (List.length h) <= 2 * max_context_messages (agent w))
  /\ (forall message response h,
        current_history (final (AgentCore._update_context message response) w)
          = Some h ->
        conversation_context (agent w) <> None ->
        Z.of_nat (List.length h) <= 2 * max_context_messages (agent w)).
Proof.
  intros Hm. split.
  - intros Hf h. unfold final.
    rewrite load_conversation_context_run by exact Hf.
    set (bound := 2 * max_context_messages (agent w)).
    unfold current_history. simpl. intros [= <-]. subst bound.
    rewrite length_app, !length_map, length_rev.
    pose proof (limit_length (max_context_messages (agent w))
                  (AgentCore.order_by_timestamp_desc
                     (filter (fun c => Models.eq_opt_Z (Models.conv_user_id c)
                                         (current_user_id (agent w)))
                             (Models.conversations (db w))))) as Hl.
    unfold AgentCore.recent_conversations. lia.
  - intros message response h. unfold final, AgentCore._update_context, bind,
      get_agent, current_history.
    set (bound := 2 * max_context_messages (agent w)).
    destruct (conversation_context (agent w)) as [c|] eqn:Ec.
    + simpl. intros [= <-] _. subst bound.
      now apply truncate_history_length.
    + intros _ Hc. now contradict Hc.
Qed.

(** C6.  With the window bound configured to zero, the context rebuilt by
    [set_user] is empty, and after one processed turn the history holds
    two entries, more than twice the bound; after two turns it holds
    four. *)
Theorem history_exceeds_window_for_zero_bound :
  let w1 := final (AgentCore.set_user "42" (Some "alice") None None)
                  (fresh_world 0) in
  let w2 := final (AgentCore.process_message env_down [] "hi") w1 in
  let w3 := final (AgentCore.process_message env_down [] "bye") w2 in
  max_context_messages (agent w2) = 0
  /\ current_history w1 = Some []
  /\ outcome (AgentCore.process_message env_down [] "hi") w1
     = Ok AIBrain.think_apology
  /\ option_map (@List.length Entry) (current_history w2) = Some 2%nat
  /\ option_map (@List.length Entry) (current_history w3) = Some 4%nat.
Proof. repeat split. Qed.

(** ** The financial plugin *)

Section BasicFinancialFacts.
Variable cal : BasicFinancial.Calendar.
Variable _log_transaction : string -> string -> M string.
Variables (_set_budget : string -> M string) (_check_budget : M string).

Let handle : string -> option Context -> M (option string) :=
  BasicFinancial.handle cal _log_transaction _set_budget _check_budget.

(** [_extract_time_range] only reads the clock. *)
Lemma extract_time_range_run (query : string) (w : World) :
  exists range,
    BasicFinancial._extract_time_range cal query w =
      (Ok range, mkWorld (agent w) (db w) (faults w) (clock w + 1))
    /\ snd range = clock w.
Proof.
  unfold BasicFinancial._extract_time_range, bind, utcnow.
  repeat match goal with
         | |- context [if ?b then _ else _] => destruct b
         end; eexists; split; reflexivity.
Qed.

(** [_generate_report] never raises and never writes to the store. *)
Lemma generate_report_reads_only (query : string) (w : World) :
  exists text w',
    BasicFinancial._generate_report cal query w = (Ok text, w')
    /\ db w' = db w.
Proof.
  unfold BasicFinancial._generate_report, try_except, bind.
  destruct (extract_time_range_run query w) as (range & Hr & _).
  rewrite Hr. unfold Database.with_db. simpl.
  destruct (faults w) as [|[|] rest]; simpl;
    try (do 2 eexists; split; reflexivity);
    match goal with
    | |- context [match ?l with [] => _ | _ :: _ => _ end] => destruct l
    end; do 2 eexists; split; reflexivity.
Qed.

Lemma filter_in_range_nil (uid : option Z) (range : Z * Z)
    (rows : list Models.FinancialTransaction) :
  filter (fun t => Models.eq_opt_Z (Models.tx_user_id t) uid) rows = [] ->
  filter (BasicFinancial.in_range uid range) rows = [].
Proof.
  induction rows as [|t rest IH]; simpl; [reflexivity|].
  unfold BasicFinancial.in_range at 1.
  destruct (Models.eq_opt_Z (Models.tx_user_id t) uid); simpl;
    [discriminate | exact IH].
Qed.

(** A message without "how much", "spent", "total", "report", "summary" or
    "budget" that says "paid" does reach [_log_transaction]. *)
Lemma paid_message_is_logged (context : option Context) :
  handle "I paid $25 for groceries" context
  = (r <- _log_transaction "I paid $25 for groceries" "expense" ;;
     ret (Some r)).
Proof. reflexivity. Qed.

(** The plugin advertises the phrase for logging an expense. *)
Lemma spent_phrase_is_advertised :
  Py.dict_get BasicFinancial.get_commands "I spent $X on [category]"
  = Some "Log an expense".
Proof. reflexivity. Qed.

(** C4.  The financial plugin claims "I spent $25 on groceries", but its
    [handle] tests the report words first and "spent" is one of them: the
    message goes to [_generate_report], whatever [_log_transaction] does;
    no transaction is written; and for a user without transactions and a
    working store the answer is the text "No transactions found for"
    followed by the current month. *)
Theorem spent_message_generates_report (context : option Context)
    (w : World) :
  BasicFinancial.can_handle "I spent $25 on groceries" context = Ok true
  /\ handle "I spent $25 on groceries" context
     = (r <- BasicFinancial._generate_report cal "I spent $25 on groceries" ;;
        ret (Some r))
  /\ Models.financial_transactions
       (db (final (handle "I spent $25 on groceries" context) w))
     = Models.financial_transactions (db w)
  /\ (hd false (faults w) = false ->
      filter (fun t => Models.eq_opt_Z (Models.tx_user_id t)
                                       (current_user_id (agent w)))
             (Models.financial_transactions (db w)) = [] ->
      outcome (handle "I spent $25 on groceries" context) w
      = Ok (Some ("No transactions found for "
                    ++ BasicFinancial._format_period cal
                         (BasicFinancial.start_of_month cal (clock w),
                          clock w))%string)).
Proof.
  split; [reflexivity|]. split; [reflexivity|].
  assert (Hh : handle "I spent $25 on groceries" context
               = (r <- BasicFinancial._generate_report cal
                         "I spent $25 on groceries" ;; ret (Some r)))
    by reflexivity.
  split.
  - rewrite Hh. unfold final, bind.
    destruct (generate_report_reads_only "I spent $25 on groceries" w)
      as (text & w' & Hg & Hdb).
    rewrite Hg. simpl. now rewrite Hdb.
  - intros Hf Hnone. rewrite Hh. unfold outcome, bind.
    unfold BasicFinancial._generate_report, try_except, bind.
    change (BasicFinancial._extract_time_range cal
              "I spent $25 on groceries" w)
      with (Ok (BasicFinancial.start_of_month cal (clock w), clock w),
            mkWorld (agent w) (db w) (faults w) (clock w + 1)).
    cbv beta iota.
    rewrite with_db_run by exact Hf.
    unfold get_db_state, get_agent. cbv beta iota. simpl agent. simpl db.
    rewrite filter_in_range_nil by exact Hnone.
    reflexivity.
Qed.

End BasicFinancialFacts.

(** The turn of a user without transactions in the sample calendar: the
    answer is the empty report and the transaction table stays empty. *)
Lemma spent_message_sample_reply :
  let run := BasicFinancial.handle sample_calendar
               (fun _ _ => ret "logged") (fun _ => ret "budget set")
               (ret "budget status") "I spent $25 on groceries" None in
  outcome run (alice_world 100 [])
    = Ok (Some "No transactions found for November 2026")
  /\ Models.financial_transactions (db (final run (alice_world 100 []))) = [].
Proof. split; reflexivity. Qed.

(** ** Further properties of the code *)

(** *** Strings *)

Lemma prefix_app (p s : string) : String.prefix p (p ++ s)%string = true.
Proof.
  induction p as [|c p IH]; simpl; [now destruct s|].
  destruct (Ascii.ascii_dec c c) as [_|Hne]; [exact IH | now contradict Hne].
Qed.

Lemma prefix_split (p s : string) :
  String.prefix p s = true -> exists r, s = (p ++ r)%string.
Proof.
  revert s. induction p as [|c p IH]; intros s H.
  - exists s. reflexivity.
  - destruct s as [|d s]; simpl in H; [discriminate|].
    destruct (Ascii.ascii_dec c d) as [->|]; [|discriminate].
    destruct (IH s H) as [r ->]. exists r. reflexivity.
Qed.

(** [needle in hay] holds exactly when [hay] is some text, [needle], some
    text. *)
Lemma contains_iff (needle hay : string) :
  Py.contains needle hay = true <->
  exists a b, hay = (a ++ needle ++ b)%string.
Proof.
  split.
  - induction hay as [|c t IH]; intros H; cbn [Py.contains] in H.
    + rewrite orb_false_r in H. apply prefix_split in H.
      destruct H as [r Hr]. exists EmptyString, r. exact Hr.
    + apply orb_true_iff in H. destruct H as [H|H].
      * apply prefix_split in H. destruct H as [r Hr].
        exists EmptyString, r. exact Hr.
      * destruct (IH H) as (a & b & ->). exists (String c a), b. reflexivity.
  - intros (a & b & ->). induction a as [|c a IH].
    + change (EmptyString ++ needle ++ b)%string with (needle ++ b)%string.
      destruct (needle ++ b)%string eqn:E; cbn [Py.contains];
        rewrite <- E, prefix_app; reflexivity.
    + change (String c a ++ needle ++ b)%string
        with (String c (a ++ needle ++ b))%string.
      cbn [Py.contains]. rewrite IH. apply orb_true_r.
Qed.

Lemma lower_ascii_idempotent (c : ascii) :
  Py.lower_ascii (Py.lower_ascii c) = Py.lower_ascii c.
Proof.
  destruct c as [[] [] [] [] [] [] [] []]; reflexivity.
Qed.

Lemma lower_idempotent (s : string) : Py.lower (Py.lower s) = Py.lower s.
Proof.
  induction s as [|c t IH]; simpl; [reflexivity|].
  now rewrite lower_ascii_idempotent, IH.
Qed.

Lemma existsb_true_iff_in {A : Type} (f : A -> bool) (l : list A) :
  Py.any f l = true <-> exists x, In x l /\ f x = true.
Proof. unfold Py.any. apply existsb_exists. Qed.

(** *** core/plugin.py: the default [can_handle] *)

(** X1.  The default [can_handle] never raises; it answers true exactly
    when the lower-cased message contains the lower-cased form of one of
    the keywords; the letter case of the message does not matter; and a
    plugin without keywords claims nothing. *)
Theorem default_can_handle_case_insensitive_substring
    (kws : list string) (message : string) (context : option Context) :
  (exists b, PluginBase.default_can_handle kws message context = Ok b)
  /\ (PluginBase.default_can_handle kws message context = Ok true <->
      exists k a b,
        In k kws /\ Py.lower message = (a ++ Py.lower k ++ b)%string)
  /\ PluginBase.default_can_handle kws (Py.lower message) context
     = PluginBase.default_can_handle kws message context
  /\ PluginBase.default_can_handle [] message context = Ok false.
Proof.
  split; [|split; [|split]].
  - destruct kws; eexists; reflexivity.
  - unfold PluginBase.default_can_handle. destruct kws as [|k0 rest].
    + split; [discriminate | intros (k & _ & _ & [] & _)].
    + remember (k0 :: rest) as l eqn:El. clear El. split.
      * intros [= H]. apply existsb_true_iff_in in H.
        destruct H as (k & Hin & Hc). apply contains_iff in Hc.
        destruct Hc as (a & b & E). exists k, a, b. split; assumption.
      * intros (k & a & b & Hin & E). f_equal.
        apply existsb_true_iff_in. exists k. split; [exact Hin|].
        apply contains_iff. exists a, b. exact E.
  - unfold PluginBase.default_can_handle. destruct kws; [reflexivity|].
    now rewrite lower_idempotent.
  - reflexivity.
Qed.

(** *** core/plugin_manager.py: what dispatch returns *)

Lemma try_plugin_answer_nonempty (p : PluginBase.Plugin) (message : string)
    (context : option Context) (w w' : World) (s : string) :
  PluginManager.try_plugin p message context w = (Ok (Some s), w') ->
  s <> EmptyString.
Proof.
  unfold PluginManager.try_plugin, bind, lift_result, try_except, ret, raise.
  destruct (PluginBase.can_handle p message context) as [[|]|e];
    try discriminate.
  destruct (PluginBase.handle p message context w) as [[[r|]|e] w1];
    simpl; try discriminate.
  destruct (String.eqb r EmptyString) eqn:E; simpl; [discriminate|].
  intros [= <- _]. now apply String.eqb_neq.
Qed.

Lemma route_message_some_nonempty (plugins : PluginManager.Plugins)
    (message : string) (context : option Context) (w w' : World)
    (s : string) :
  PluginManager.route_message plugins message context w = (Ok (Some s), w') ->
  s <> EmptyString.
Proof.
  revert w. induction plugins as [|[n p] rest IH]; intros w; simpl.
  - discriminate.
  - unfold bind.
    destruct (PluginManager.try_plugin p message context w)
      as [[[r|]|e] w1] eqn:E.
    + intros [= <- _]. eapply try_plugin_answer_nonempty. exact E.
    + apply IH.
    + discriminate.
Qed.

(** X2.  [route_message] never returns the empty string: its result is
    [None] or a non-empty text, so that the test [if plugin_response] of
    [process_message] sends exactly the result [None] to the fallback. *)
Theorem route_message_answer_nonempty (plugins : PluginManager.Plugins)
    (message : string) (context : option Context) (w w' : World)
    (r : option string) :
  PluginManager.route_message plugins message context w = (Ok r, w') ->
  Py.truthy_str r = match r with Some _ => true | None => false end
  /\ r <> Some EmptyString.
Proof.
  intros H. destruct r as [s|]; [|split; [reflexivity | discriminate]].
  pose proof (route_message_some_nonempty plugins message context w w' s H)
    as Hs.
  split; [|congruence]. simpl. apply String.eqb_neq in Hs. now rewrite Hs.
Qed.

(** A registry whose first handler answers the empty string and whose
    second answers "x". *)
Lemma route_message_answer_nonempty_witness :
  PluginManager.route_message
    [("a", constant_plugin "A" 10 (Some EmptyString));
     ("b", constant_plugin "B" 50 (Some "x"))]
    "hello" None (fresh_world 100)
  = (Ok (Some "x"), fresh_world 100)
  /\ Some "x" <> Some EmptyString.
Proof.
  split; [reflexivity|].
  apply (route_message_answer_nonempty
           [("a", constant_plugin "A" 10 (Some EmptyString));
            ("b", constant_plugin "B" 50 (Some "x"))]
           "hello" None (fresh_world 100) (fresh_world 100) (Some "x")).
  reflexivity.
Defined.

(** X3.  When no handler claims the message, [route_message] returns
    [None] and no [handle] has run: the world is as it was. *)
Theorem route_message_unclaimed_runs_nothing
    (plugins : PluginManager.Plugins) (message : string)
    (context : option Context) (w : World) :
  (forall n p, In (n, p) plugins ->
     PluginBase.can_handle p message context = Ok false) ->
  PluginManager.route_message plugins message context w = (Ok None, w).
Proof.
  induction plugins as [|[n p] rest IH]; intros H; simpl; [reflexivity|].
  unfold bind.
  rewrite try_plugin_unclaimed by (apply (H n p); now left).
  apply IH. intros n' p' Hin. apply (H n' p'). now right.
Qed.

(** The memory plugin and a plugin with the default [can_handle] and no
    matching keyword, before a handler that would change the store. *)
Lemma route_message_unclaimed_runs_nothing_witness :
  PluginManager.route_message
    [("memory", MemoryPlugin.plugin);
     ("reminders",
      PluginBase.mkPlugin "Smart Reminders" 20 ["remind"; "reminder"]
        (PluginBase.default_can_handle ["remind"; "reminder"])
        (fun _ _ => PluginBase.store_data "Smart Reminders" "k" Py.JNull ;;
                    ret (Some "stored")))]
    "hello there" None (alice_world 100 [])
  = (Ok None, alice_world 100 []).
Proof.
  apply route_message_unclaimed_runs_nothing.
  intros n p [H|[H|[]]]; inversion H; subst; reflexivity.
Defined.

(** *** plugins/conversation.py and plugins/memory.py *)

(** X4.  With the conversation plugin registered behind handlers that do
    not claim the message, dispatch returns what [think] returns (the
    model's text, or [think]'s own apology when the service fails): the
    plugin's own trouble text is never used, and the result is [None] only
    when that text is empty. *)
Theorem conversation_plugin_is_the_fallback (env : Env)
    (names : list string) (plugins : PluginManager.Plugins) (n : string)
    (message : string) (context : option Context) (w : World) :
  (forall n' p, In (n', p) plugins ->
     PluginBase.can_handle p message context = Ok false) ->
  exists text,
    AIBrain.think env message context names w
      = (Ok text, mkWorld (agent w) (db w) (faults w) (clock w + 1))
    /\ PluginManager.route_message
         (plugins ++ [(n, ConversationPlugin.plugin env names)])
         message context w
       = (Ok (if String.eqb text EmptyString then None else Some text),
          mkWorld (agent w) (db w) (faults w) (clock w + 1)).
Proof.
  intros H. destruct (think_total env message context names w) as [text Ht].
  exists text. split; [exact Ht|].
  induction plugins as [|[n' p] rest IH]; simpl.
  - unfold bind. rewrite try_plugin_claimed by reflexivity.
    simpl. unfold ConversationPlugin.handle, try_except, bind.
    rewrite Ht. simpl. destruct (String.eqb text EmptyString); reflexivity.
  - unfold bind.
    rewrite try_plugin_unclaimed by (apply (H n' p); now left).
    apply IH. intros n2 p2 Hin. apply (H n2 p2). now right.
Qed.

(** Behind the memory plugin, with the service down. *)
Lemma conversation_plugin_is_the_fallback_witness :
  outcome
    (PluginManager.route_message
       [("memory", MemoryPlugin.plugin);
        ("conversation", ConversationPlugin.plugin env_down ["memory"])]
       "hello" None)
    (fresh_world 100)
  = Ok (Some AIBrain.think_apology).
Proof.
  destruct (conversation_plugin_is_the_fallback env_down ["memory"]
              [("memory", MemoryPlugin.plugin)] "conversation" "hello" None
              (fresh_world 100))
    as (text & Ht & Hr).
  - intros n' p [H|[]]. inversion H. reflexivity.
  - unfold outcome. simpl app in Hr. rewrite Hr.
    assert (E : text = AIBrain.think_apology).
    { assert (Ht' : AIBrain.think env_down "hello" None ["memory"]
                      (fresh_world 100)
                    = (Ok AIBrain.think_apology,
                       mkWorld (agent (fresh_world 100)) (db (fresh_world 100))
                               (faults (fresh_world 100))
                               (clock (fresh_world 100) + 1)))
        by reflexivity.
      rewrite Ht' in Ht. now injection Ht as <-. }
    rewrite E. reflexivity.
Defined.

(** *** core/ai_brain.py *)

(** [l[-n:]] for a positive [n] is [l] without its first [len(l) - n]
    elements. *)
Lemma slice_from_neg_skipn {A : Type} (n : Z) (l : list A) :
  0 < n ->
  Py.slice_from (- n) l = skipn (List.length l - Z.to_nat n) l.
Proof.
  intros Hn. unfold Py.slice_from.
  destruct (- n <? 0) eqn:E; [|apply Z.ltb_ge in E; lia].
  f_equal. lia.
Qed.

(** X5.  [_build_messages] sends the last ten entries of the history (all
    of them when there are fewer, none without a context) in their order,
    each with its role and content, followed by the current message under
    the role "user". *)
Theorem build_messages_last_ten (current_message : string)
    (context : option Context) :
  let hist := match context with Some c => history c | None => [] end in
  exists older recent,
    hist = older ++ recent
    /\ List.length recent = Nat.min 10 (List.length hist)
    /\ AIBrain._build_messages current_message context
       = map (fun e => (role e, content e)) recent
         ++ [("user", current_message)]
    /\ List.length (AIBrain._build_messages current_message context)
       = S (Nat.min 10 (List.length hist)).
Proof.
  intros hist.
  exists (firstn (List.length hist - 10) hist),
         (skipn (List.length hist - 10) hist).
  assert (Hlen : List.length (skipn (List.length hist - 10) hist)
                 = Nat.min 10 (List.length hist))
    by (rewrite length_skipn; lia).
  assert (Hb : AIBrain._build_messages current_message context
               = map (fun e => (role e, content e))
                     (skipn (List.length hist - 10) hist)
                 ++ [("user", current_message)]).
  { unfold AIBrain._build_messages. fold hist.
    do 2 f_equal. apply (slice_from_neg_skipn 10 hist). lia. }
  split; [symmetry; apply firstn_skipn|].
  split; [exact Hlen|]. split; [exact Hb|].
  rewrite Hb, length_app, length_map, Hlen. simpl. lia.
Qed.

(** X6.  [think], [analyze_intent] and [summarize_conversation] never
    raise, whatever the service and the parser do, and leave the agent and
    the store as they were. *)
Theorem ai_brain_never_raises (env : Env) (message : string)
    (context : option Context) (names : list string)
    (messages : list (string * string)) (w : World) :
  let w' := mkWorld (agent w) (db w) (faults w) (clock w + 1) in
  (exists text, AIBrain.think env message context names w = (Ok text, w'))
  /\ (exists intent, AIBrain.analyze_intent env message w = (Ok intent, w'))
  /\ (exists summary,
        AIBrain.summarize_conversation env messages w = (Ok summary, w')).
Proof.
  intros w'. split; [apply think_total|]. split; [apply analyze_intent_total|].
  unfold AIBrain.summarize_conversation, try_except, bind.
  rewrite llm_call_run.
  destruct (llm env (clock w) (AIBrain.summary_request messages));
    eexists; reflexivity.
Qed.

(** *** core/database.py: user rows *)

Lemma next_id_above {R : Type} (id : R -> Z) (rows : list R) (r : R) :
  In r rows -> id r < Models.next_id id rows.
Proof.
  unfold Models.next_id. induction rows as [|x t IH]; intros Hin;
    [destruct Hin|].
  cbn [fold_right]. destruct Hin as [->|Hin]; [lia | specialize (IH Hin); lia].
Qed.

Lemma first_some_in {R : Type} (p : R -> bool) (rows : list R) (r : R) :
  Models.first p rows = Some r -> In r rows /\ p r = true.
Proof. apply find_some. Qed.

Lemma first_none_all {R : Type} (p : R -> bool) (rows : list R) :
  Models.first p rows = None -> forall r, In r rows -> p r = false.
Proof. intros H r. apply (find_none p rows H). Qed.

(** X7.  With a working session [get_or_create_user] returns the data of a
    row of the user table that carries the given transport id; it only
    ever appends to the table; and it keeps user ids distinct and (when
    they were) transport ids distinct.  The agent object is not touched. *)
Theorem get_or_create_user_keeps_keys_unique (tid : string)
    (uname fname lname : option string) (w : World) :
  hd false (faults w) = false ->
  NoDup (map Models.user_id_ (Models.users (db w))) ->
  exists u w',
    Database.get_or_create_user tid uname fname lname w
      = (Ok (Database.user_data u), w')
    /\ In u (Models.users (db w'))
    /\ Models.telegram_id u = tid
    /\ (exists added, Models.users (db w') = Models.users (db w) ++ added)
    /\ NoDup (map Models.user_id_ (Models.users (db w')))
    /\ (NoDup (map Models.telegram_id (Models.users (db w))) ->
        NoDup (map Models.telegram_id (Models.users (db w'))))
    /\ agent w' = agent w.
Proof.
  intros Hf Hids.
  destruct (Models.first (fun u => String.eqb (Models.telegram_id u) tid)
                         (Models.users (db w))) as [u|] eqn:Hu.
  - exists u. eexists.
    split; [apply (get_or_create_user_known tid uname fname lname w u Hf Hu)|].
    apply first_some_in in Hu. destruct Hu as [Hin Htid].
    apply String.eqb_eq in Htid. simpl.
    repeat split; try assumption; [|tauto]. exists []. now rewrite app_nil_r.
  - eexists. eexists.
    split; [apply (get_or_create_user_new tid uname fname lname w Hf Hu)|].
    simpl. split; [apply in_or_app; right; now left|].
    split; [reflexivity|]. split; [eexists; reflexivity|].
    split; [|split; [|reflexivity]].
    + rewrite map_app. simpl.
      apply Permutation_NoDup
        with (l := Models.next_id Models.user_id_ (Models.users (db w))
                   :: map Models.user_id_ (Models.users (db w))).
      * apply Permutation_cons_append.
      * constructor; [|exact Hids].
        intros Hin. apply in_map_iff in Hin. destruct Hin as (x & Hx & Hin).
        pose proof (next_id_above Models.user_id_ _ x Hin). lia.
    + intros Htids. rewrite map_app. simpl.
      apply Permutation_NoDup
        with (l := tid :: map Models.telegram_id (Models.users (db w))).
      * apply Permutation_cons_append.
      * constructor; [|exact Htids].
        intros Hin. apply in_map_iff in Hin. destruct Hin as (x & Hx & Hin).
        pose proof (first_none_all _ _ Hu x Hin) as Hne. simpl in Hne.
        rewrite Hx, String.eqb_refl in Hne. discriminate.
Qed.

(** A second user arriving at the sample store. *)
Lemma get_or_create_user_keeps_keys_unique_witness :
  exists u w',
    Database.get_or_create_user "43" (Some "bob") None None two_turns_world
      = (Ok (Database.user_data u), w')
    /\ Models.telegram_id u = "43"
    /\ NoDup (map Models.user_id_ (Models.users (db w')))
    /\ NoDup (map Models.telegram_id (Models.users (db w'))).
Proof.
  destruct (get_or_create_user_keeps_keys_unique "43" (Some "bob") None None
              two_turns_world eq_refl)
    as (u & w' & H1 & _ & H3 & _ & H5 & H6 & _).
  - repeat constructor. simpl. tauto.
  - exists u, w'. repeat split; try assumption.
    apply H6. repeat constructor. simpl. tauto.
Defined.

(** *** core/plugin.py: the plugin-data table *)

Section UpsertFacts.
Import Models PluginBase.

Lemma length_update_first (p : PluginData -> bool)
    (f : PluginData -> PluginData) (rows : list PluginData) :
  List.length (update_first p f rows) = List.length rows.
Proof.
  induction rows as [|r t IH]; simpl; [reflexivity|].
  destruct (p r); simpl; [reflexivity | now rewrite IH].
Qed.

Lemma filter_update_first_same (p : PluginData -> bool)
    (f : PluginData -> PluginData) (rows : list PluginData) :
  (forall r, p (f r) = p r) ->
  List.length (filter p (update_first p f rows))
  = List.length (filter p rows).
Proof.
  intros Hp. induction rows as [|r t IH]; simpl; [reflexivity|].
  destruct (p r) eqn:E; simpl.
  - now rewrite Hp, E.
  - now rewrite E.
Qed.

Lemma filter_update_first_other (p q : PluginData -> bool)
    (f : PluginData -> PluginData) (rows : list PluginData) :
  (forall r, p r = true -> q r = false) -> (forall r, q (f r) = q r) ->
  filter q (update_first p f rows) = filter q rows.
Proof.
  intros Hpq Hq. induction rows as [|r t IH]; simpl; [reflexivity|].
  destruct (p r) eqn:E; simpl.
  - now rewrite Hq, (Hpq r E).
  - now rewrite IH.
Qed.

Lemma triple_eq_dec (x y : string * string * option Z) : {x = y} + {x <> y}.
Proof. repeat decide equality. Qed.

Lemma stored_table_length (pname key : string) (uid : option Z) (now : Z)
    (value : Py.Json) (rows : list PluginData) :
  List.length (stored_table pname key uid now value rows)
  = match first (matches pname key uid) rows with
    | Some _ => List.length rows
    | None => S (List.length rows)
    end.
Proof.
  unfold stored_table. destruct (first (matches pname key uid) rows).
  - apply length_update_first.
  - rewrite length_app. simpl. lia.
Qed.

Lemma stored_table_one_row (pname key : string) (uid : option Z) (now : Z)
    (value : Py.Json) (rows : list PluginData) :
  one_row_per_triple rows ->
  one_row_per_triple (stored_table pname key uid now value rows).
Proof.
  intros Hone pname' key' uid'. unfold stored_table.
  destruct (triple_eq_dec (pname', key', uid') (pname, key, uid)) as [E|Hne].
  - injection E as -> -> ->.
    destruct (first (matches pname key uid) rows) eqn:Hf.
    + rewrite filter_update_first_same by (intros; apply matches_set_value).
      apply Hone.
    + rewrite filter_app, (first_none_filter _ _ Hf). simpl.
      destruct (matches pname key uid _); simpl; lia.
  - destruct (first (matches pname key uid) rows) eqn:Hf.
    + rewrite filter_update_first_other; [apply Hone | |].
      * intros r. now apply matches_disjoint.
      * intros r. apply matches_set_value.
    + rewrite filter_app. simpl.
      rewrite (matches_disjoint pname key pname' key' uid uid' _ Hne)
        by (apply matches_triple; simpl; auto).
      rewrite app_nil_r. apply Hone.
Qed.

End UpsertFacts.

(** X8.  With a working session [store_data] is an upsert: when the
    (plugin, current user, key) triple has a row the table keeps its
    length, otherwise it grows by one row; a table with at most one row
    per triple stays so; and no other table is touched. *)
Theorem store_data_upserts (pname key : string) (value : Py.Json)
    (w : World) :
  hd false (faults w) = false ->
  exists w',
    PluginBase.store_data pname key value w = (Ok tt, w')
    /\ (stored_value w pname (current_user_id (agent w)) key <> None ->
        List.length (Models.plugin_data (db w'))
        = List.length (Models.plugin_data (db w)))
    /\ (stored_value w pname (current_user_id (agent w)) key = None ->
        List.length (Models.plugin_data (db w'))
        = S (List.length (Models.plugin_data (db w))))
    /\ (one_row_per_triple (Models.plugin_data (db w)) ->
        one_row_per_triple (Models.plugin_data (db w')))
    /\ Models.users (db w') = Models.users (db w)
    /\ Models.conversations (db w') = Models.conversations (db w)
    /\ Models.memories (db w') = Models.memories (db w)
    /\ Models.financial_transactions (db w')
       = Models.financial_transactions (db w).
Proof.
  intros Hf. eexists. split; [apply store_data_run; exact Hf|].
  simpl. unfold stored_value. rewrite stored_table_length.
  destruct (Models.first
              (PluginBase.matches pname key (current_user_id (agent w)))
              (Models.plugin_data (db w))) eqn:E; simpl.
  - repeat split; try reflexivity; try (intros; congruence).
    apply stored_table_one_row.
  - repeat split; try reflexivity; try (intros; congruence).
    apply stored_table_one_row.
Qed.

(** Two stores under one key: the second finds the row of the first. *)
Lemma store_data_upserts_witness :
  exists w1 w2,
    PluginBase.store_data "Basic Financial" "budgets" (Py.JInt 1)
      (alice_world 100 []) = (Ok tt, w1)
    /\ PluginBase.store_data "Basic Financial" "budgets" (Py.JInt 2) w1
       = (Ok tt, w2)
    /\ List.length (Models.plugin_data (db w1)) = 1%nat
    /\ List.length (Models.plugin_data (db w2)) = 1%nat
    /\ one_row_per_triple (Models.plugin_data (db w2)).
Proof.
  destruct (store_data_upserts "Basic Financial" "budgets" (Py.JInt 1)
              (alice_world 100 []) eq_refl)
    as (w1 & H1 & _ & Hnew & Hone & _).
  assert (E1 : w1 = final (PluginBase.store_data "Basic Financial" "budgets"
                             (Py.JInt 1)) (alice_world 100 []))
    by (unfold final; now rewrite H1).
  assert (Hf1 : hd false (faults w1) = false) by (rewrite E1; reflexivity).
  destruct (store_data_upserts "Basic Financial" "budgets" (Py.JInt 2) w1 Hf1)
    as (w2 & H2 & Hsame & _ & Hone2 & _).
  exists w1, w2. split; [exact H1|]. split; [exact H2|].
  assert (L1 : List.length (Models.plugin_data (db w1)) = 1%nat)
    by (apply Hnew; reflexivity).
  split; [exact L1|]. split.
  - rewrite Hsame; [exact L1|]. rewrite E1. discriminate.
  - apply Hone2, Hone. intros p k u. simpl. lia.
Defined.

(** *** core/agent_core.py: switching users *)

Lemma load_conversation_context_fault (w : World) (rest : list bool) :
  faults w = true :: rest ->
  AgentCore._load_conversation_context w
  = (Raise (Exception "OperationalError"),
     mkWorld (agent w) (db w) rest (clock w)).
Proof.
  intros H. unfold AgentCore._load_conversation_context.
  now apply with_db_fault.
Qed.

(** X9.  [set_user] makes the user current before it loads the context.
    When the session of [get_or_create_user] works and the session of
    [_load_conversation_context] fails, [set_user] raises, the user of the
    given transport id is current, and the conversation context is still
    the one that was loaded before, whoever it belonged to. *)
Theorem set_user_failed_load_keeps_previous_context (tid : string)
    (uname fname lname : option string) (w : World) (rest : list bool) :
  faults w = false :: true :: rest ->
  exists u w',
    AgentCore.set_user tid uname fname lname w
      = (Raise (Exception "OperationalError"), w')
    /\ In u (Models.users (db w'))
    /\ Models.telegram_id u = tid
    /\ current_user_id (agent w') = Some (Models.user_id_ u)
    /\ current_user (agent w') = Some (Database.user_data u)
    /\ conversation_context (agent w') = conversation_context (agent w).
Proof.
  intros Hf.
  assert (Hhd : hd false (faults w) = false) by now rewrite Hf.
  unfold AgentCore.set_user, bind.
  destruct (Models.first (fun u => String.eqb (Models.telegram_id u) tid)
                         (Models.users (db w))) as [u|] eqn:Hu.
  - rewrite (get_or_create_user_known tid uname fname lname w u Hhd Hu).
    unfold get_agent, put_agent. cbv beta iota. simpl agent. simpl db.
    simpl faults. simpl clock. rewrite Hf. simpl tl.
    erewrite load_conversation_context_fault by reflexivity.
    apply first_some_in in Hu. destruct Hu as [Hin Htid].
    apply String.eqb_eq in Htid.
    exists u. eexists. split; [reflexivity|]. simpl. auto.
  - rewrite (get_or_create_user_new tid uname fname lname w Hhd Hu).
    unfold get_agent, put_agent. cbv beta iota. simpl agent. simpl db.
    simpl faults. simpl clock. rewrite Hf. simpl tl.
    erewrite load_conversation_context_fault by reflexivity.
    eexists. eexists. split; [reflexivity|]. simpl.
    split; [apply in_or_app; right; now left|]. auto.
Qed.

(** User 2 arrives while user 1's context is loaded and the second session
    fails: user 2 is current, the context is still user 1's. *)
Lemma set_user_failed_load_keeps_previous_context_witness :
  exists w',
    AgentCore.set_user "43" (Some "bob") None None
      (shared_world [false; true])
      = (Raise (Exception "OperationalError"), w')
    /\ current_user_id (agent w') = Some 2
    /\ current_history w'
       = Some [mkEntry "user" "my pin is 1234" 10;
               mkEntry "assistant" "Noted." 10].
Proof.
  destruct (set_user_failed_load_keeps_previous_context "43" (Some "bob")
              None None (shared_world [false; true]) [] eq_refl)
    as (u & w' & H & _ & _ & _ & _ & Hctx).
  exists w'. split; [exact H|].
  assert (E : w' = final (AgentCore.set_user "43" (Some "bob") None None)
                         (shared_world [false; true]))
    by (unfold final; now rewrite H).
  split; [rewrite E; reflexivity|].
  unfold current_history. rewrite Hctx. reflexivity.
Defined.

(** *** core/agent_core.py: the sliding window *)

Lemma skipn_app_left {A : Type} (k : nat) (l tail : list A) :
  (k <= List.length l)%nat -> skipn k (l ++ tail) = skipn k l ++ tail.
Proof.
  intros Hk. rewrite skipn_app.
  replace (k - List.length l)%nat with 0%nat by lia. reflexivity.
Qed.

(** X10.  With a loaded context and a positive bound, [_update_context]
    drops entries from the front of the history only, appends the user
    entry and then the assistant entry of the turn, keeps everything when
    the result fits in twice the bound, and leaves at most twice the bound
    entries; the store is not touched. *)
Theorem update_context_slides_window (message response : string)
    (w : World) (c : Context) :
  conversation_context (agent w) = Some c ->
  0 < max_context_messages (agent w) ->
  exists dropped kept,
    history c = dropped ++ kept
    /\ AgentCore._update_context message response w
       = (Ok tt,
          mkWorld
            (AgentCore.with_context (agent w)
               (mkContext (ctx_user c)
                  (kept ++ [mkEntry "user" message (clock w);
                            mkEntry "assistant" response (clock w + 1)])))
            (db w) (faults w) (clock w + 1 + 1))
    /\ Z.of_nat (List.length kept) + 2 <= 2 * max_context_messages (agent w)
    /\ (Z.of_nat (List.length (history c)) + 2
          <= 2 * max_context_messages (agent w) ->
        dropped = []).
Proof.
  intros Hc Hm.
  set (bound := max_context_messages (agent w)) in *.
  set (turn := [mkEntry "user" message (clock w);
                mkEntry "assistant" response (clock w + 1)]).
  assert (Hrun : forall kept,
            AgentCore.truncate_history bound (history c ++ turn) = kept ++ turn ->
            AgentCore._update_context message response w
            = (Ok tt,
               mkWorld
                 (AgentCore.with_context (agent w)
                    (mkContext (ctx_user c) (kept ++ turn)))
                 (db w) (faults w) (clock w + 1 + 1))).
  { intros kept Hk. unfold AgentCore._update_context, bind, get_agent.
    rewrite Hc. unfold utcnow, put_agent. simpl. fold bound.
    fold turn. now rewrite Hk. }
  unfold AgentCore.truncate_history in Hrun.
  rewrite length_app in Hrun. simpl List.length in Hrun.
  destruct (bound * 2 <? Z.of_nat (List.length (history c) + 2)) eqn:E.
  - apply Z.ltb_lt in E.
    set (k := (List.length (history c) + 2 - Z.to_nat (bound * 2))%nat).
    exists (firstn k (history c)), (skipn k (history c)).
    split; [symmetry; apply firstn_skipn|]. split.
    + apply Hrun.
      replace (- bound * 2) with (- (bound * 2)) by lia.
      rewrite slice_from_neg_skipn by lia.
      rewrite length_app. simpl List.length. fold k.
      apply skipn_app_left. unfold k. lia.
    + split; [rewrite length_skipn; unfold k; lia | lia].
  - apply Z.ltb_ge in E.
    exists [], (history c). split; [reflexivity|].
    split; [now apply Hrun|]. split; [lia | reflexivity].
Qed.

(** A full window of two entries under a bound of one: the old turn goes,
    the new one comes. *)
Lemma update_context_slides_window_witness :
  let old := [mkEntry "user" "hi" 10; mkEntry "assistant" "hello" 10] in
  let w := mkWorld (mkAgent (Some 1) None (Some (mkContext None old)) 1)
                   Models.empty_db [] 100 in
  current_history (final (AgentCore._update_context "bye" "goodbye") w)
  = Some [mkEntry "user" "bye" 100; mkEntry "assistant" "goodbye" 101]
  /\ exists dropped kept,
       old = dropped ++ kept /\ Z.of_nat (List.length kept) + 2 <= 2 * 1.
Proof.
  intros old w. split; [reflexivity|].
  destruct (update_context_slides_window "bye" "goodbye" w
              (mkContext None old) eq_refl eq_refl)
    as (dropped & kept & Hsplit & _ & Hlen & _).
  exists dropped, kept. split; [exact Hsplit | exact Hlen].
Defined.

(** *** core/agent_core.py: the context [set_user] loads *)

Lemma in_firstn_in {A : Type} (n : nat) (l : list A) (x : A) :
  In x (firstn n l) -> In x l.
Proof.
  intros H. rewrite <- (firstn_skipn n l). apply in_or_app. now left.
Qed.

Lemma StronglySorted_snoc {A : Type} (R : A -> A -> Prop) (l : list A)
    (x : A) :
  StronglySorted R l -> Forall (fun y => R y x) l ->
  StronglySorted R (l ++ [x]).
Proof.
  induction 1 as [|a t Ht IH Hall]; intros Hx; simpl.
  - repeat constructor.
  - inversion Hx; subst. constructor; [now apply IH|].
    apply Forall_app. split; [exact Hall | now repeat constructor].
Qed.

Section SortedLists.
Context {A : Type} (R : A -> A -> Prop).

Lemma StronglySorted_firstn (n : nat) (l : list A) :
  StronglySorted R l -> StronglySorted R (firstn n l).
Proof.
  revert n. induction l as [|x t IH]; intros [|n] Hs; simpl;
    try constructor.
  - apply IH. now inversion Hs.
  - inversion Hs as [|? ? _ Hall]; subst.
    apply Forall_forall. intros y Hy. apply (proj1 (Forall_forall _ _) Hall).
    eapply in_firstn_in; eauto.
Qed.

Lemma StronglySorted_app_cross (l1 l2 : list A) :
  StronglySorted R (l1 ++ l2) ->
  forall x y, In x l1 -> In y l2 -> R x y.
Proof.
  induction l1 as [|a t IH]; simpl; intros Hs x y Hx Hy; [tauto|].
  inversion Hs as [|? ? Ht Hall]; subst. destruct Hx as [<-|Hx].
  - apply (proj1 (Forall_forall _ _) Hall). apply in_or_app. now right.
  - now apply IH.
Qed.

Lemma StronglySorted_rev (l : list A) :
  StronglySorted R l -> StronglySorted (fun a b => R b a) (rev l).
Proof.
  induction 1 as [|a t Ht IH Hall]; simpl; [constructor|].
  apply (StronglySorted_snoc (fun a b => R b a)); [exact IH|].
  apply Forall_forall. intros y Hy. apply in_rev in Hy.
  apply (proj1 (Forall_forall _ _) Hall). exact Hy.
Qed.

End SortedLists.

(** X11.  With a working session and a non-negative bound,
    [_load_conversation_context] builds the history from rows that all
    belong to the current user: as many as the bound allows, the most
    recent ones, oldest first; the history is their user entries followed
    by their assistant entries, and the store is not touched. *)
Theorem load_context_holds_recent_turns_of_user (w : World) :
  hd false (faults w) = false ->
  0 <= max_context_messages (agent w) ->
  let mine :=
    filter (fun c => Models.eq_opt_Z (Models.conv_user_id c)
                                     (current_user_id (agent w)))
           (Models.conversations (db w)) in
  exists rows,
    current_history (final AgentCore._load_conversation_context w)
      = Some (map AgentCore.user_entry rows
              ++ map AgentCore.assistant_entry rows)
    /\ (forall r, In r rows -> In r mine)
    /\ List.length rows
       = Nat.min (Z.to_nat (max_context_messages (agent w)))
                 (List.length mine)
    /\ StronglySorted
         (fun a b => Models.timestamp a <= Models.timestamp b) rows
    /\ (forall r older,
          In r rows -> In older mine -> ~ In older rows ->
          Models.timestamp older <= Models.timestamp r)
    /\ db (final AgentCore._load_conversation_context w) = db w.
Proof.
  intros Hf Hm mine.
  set (sorted := AgentCore.order_by_timestamp_desc mine).
  set (n := Z.to_nat (max_context_messages (agent w))).
  assert (Hrecent : AgentCore.recent_conversations (agent w) (db w)
                    = firstn n sorted).
  { unfold AgentCore.recent_conversations, AgentCore.limit.
    destruct (max_context_messages (agent w) <? 0) eqn:E;
      [apply Z.ltb_lt in E; lia | reflexivity]. }
  assert (Hperm : Permutation sorted mine) by apply sorted_by_perm.
  assert (Hdesc : StronglySorted
                    (fun a b => Models.timestamp b <= Models.timestamp a)
                    sorted).
  { apply Sorted_StronglySorted; [intros a b c; lia|].
    pose proof (sorted_by_sorted (fun c => - Models.timestamp c) mine) as Hs.
    eapply Sorted_ind with (P := fun l => Sorted _ l); [| |exact Hs].
    - constructor.
    - intros a l _ IH Hhd. constructor; [exact IH|].
      destruct Hhd; constructor. lia. }
  exists (rev (firstn n sorted)).
  unfold final. rewrite load_conversation_context_run by exact Hf.
  rewrite Hrecent. unfold current_history. simpl.
  split; [reflexivity|]. split; [|split; [|split; [|split]]].
  - intros r Hr. apply in_rev in Hr.
    eapply Permutation_in; [exact Hperm|]. eapply in_firstn_in; eauto.
  - rewrite length_rev, length_firstn.
    now rewrite (Permutation_length Hperm).
  - apply (StronglySorted_rev
             (fun a b => Models.timestamp b <= Models.timestamp a)).
    now apply StronglySorted_firstn.
  - intros r older Hr Holder Hout. apply in_rev in Hr.
    assert (Hsk : In older (skipn n sorted)).
    { apply (Permutation_in _ (Permutation_sym Hperm)) in Holder.
      rewrite <- (firstn_skipn n sorted) in Holder.
      apply in_app_or in Holder. destruct Holder as [Hin|Hin]; [|exact Hin].
      contradict Hout. now apply -> in_rev. }
    rewrite <- (firstn_skipn n sorted) in Hdesc.
    apply (StronglySorted_app_cross _ _ _ Hdesc r older Hr Hsk).
  - reflexivity.
Qed.

(** The sample store under a bound of one turn: only the later turn is
    loaded. *)
Lemma load_context_holds_recent_turns_of_user_witness :
  let w := mkWorld (mkAgent (Some 1) None None 1) two_turns_db [] 30 in
  current_history (final AgentCore._load_conversation_context w)
  = Some [mkEntry "user" "bye" 20; mkEntry "assistant" "goodbye" 20]
  /\ exists rows,
       current_history (final AgentCore._load_conversation_context w)
       = Some (map AgentCore.user_entry rows
               ++ map AgentCore.assistant_entry rows)
       /\ List.length rows = 1%nat.
Proof.
  intros w. split; [reflexivity|].
  destruct (load_context_holds_recent_turns_of_user w eq_refl)
    as (rows & H & _ & Hlen & _); [discriminate|].
  exists rows. split; [exact H | exact Hlen].
Defined.

(** *** core/agent_core.py: memory extraction *)

Lemma summarize_conversation_total (env : Env)
    (messages : list (string * string)) (w : World) :
  exists summary,
    AIBrain.summarize_conversation env messages w
    = (Ok summary, mkWorld (agent w) (db w) (faults w) (clock w + 1)).
Proof.
  unfold AIBrain.summarize_conversation, try_except, bind.
  rewrite llm_call_run.
  destruct (llm env (clock w) (AIBrain.summary_request messages));
    eexists; reflexivity.
Qed.


(** *** core/agent_core.py: the order of the steps of a turn *)

Lemma extract_memory_keeps_conversations (env : Env)
    (message response : string) (w : World) :
  exists w',
    AgentCore._extract_memory env message response w = (Ok tt, w')
    /\ agent w' = agent w
    /\ Models.conversations (db w') = Models.conversations (db w).
Proof.
  unfold AgentCore._extract_memory, try_except, bind.
  destruct (summarize_conversation_total env
              [("user", message); ("assistant", response)] w)
    as [summary Hs].
  rewrite Hs. cbv beta iota.
  destruct (20 <? Z.of_nat (String.length summary)).
  - destruct (faults w) as [|[|] rest] eqn:Hf.
    + rewrite with_db_run by reflexivity.
      eexists. split; [reflexivity|]. split; reflexivity.
    + erewrite with_db_fault by reflexivity.
      eexists. split; [reflexivity|]. split; reflexivity.
    + rewrite with_db_run by reflexivity.
      eexists. split; [reflexivity|]. split; reflexivity.
  - eexists. split; [reflexivity|]. split; reflexivity.
Qed.

Lemma update_context_keeps_db (message response : string) (w : World) :
  db (final (AgentCore._update_context message response) w) = db w.
Proof.
  unfold final, AgentCore._update_context, bind, get_agent.
  destruct (conversation_context (agent w)); reflexivity.
Qed.

Lemma store_conversation_run (message response : string) (w : World) :
  hd false (faults w) = false ->
  AgentCore._store_conversation message response w
  = (Ok tt,
     mkWorld (agent w)
       (AgentCore.add_conversation
          (Models.mkConversation
             (Models.next_id Models.conv_id (Models.conversations (db w)))
             (current_user_id (agent w)) message response (clock w))
          (db w))
       (tl (faults w)) (clock w + 1)).
Proof.
  intros Hf. unfold AgentCore._store_conversation.
  rewrite with_db_run by exact Hf. reflexivity.
Qed.

(** What is left of a turn once the turn has been stored. *)
Lemma after_store_keeps_conversations (env : Env) (message response : string)
    (intent : Py.Json) (w : World) :
  let rest_of_turn :=
    (flagged <- lift_result (AgentCore.requires_context intent) ;;
     (if (flagged : bool)
      then AgentCore._extract_memory env message response
      else ret tt) ;;
     AgentCore._update_context message response ;;
     ret response) in
  Models.conversations (db (final rest_of_turn w))
    = Models.conversations (db w)
  /\ (outcome rest_of_turn w = Ok response
      \/ exists e, outcome rest_of_turn w = Raise e).
Proof.
  intros rest_of_turn. unfold rest_of_turn, final, outcome, bind.
  destruct (AgentCore.requires_context intent) as [flagged|e]; simpl;
    [|split; [reflexivity | right; eexists; reflexivity]].
  assert (Hmem : exists w1,
            (if flagged then AgentCore._extract_memory env message response
             else ret tt) w = (Ok tt, w1)
            /\ Models.conversations (db w1) = Models.conversations (db w)).
  { destruct flagged.
    - destruct (extract_memory_keeps_conversations env message response w)
        as (w1 & H1 & _ & H2). exists w1. split; assumption.
    - exists w. split; reflexivity. }
  destruct Hmem as (w1 & H1 & Hc1). rewrite H1.
  pose proof (update_context_keeps_db message response w1) as Hdb.
  unfold final in Hdb.
  destruct (AgentCore._update_context message response w1) as [[[]|e] w2];
    simpl in *; rewrite Hdb, Hc1.
  - split; [reflexivity | now left].
  - split; [reflexivity | right; eexists; reflexivity].
Qed.

(** X13.  A turn is stored before the classification is consulted, the
    memory extracted and the context updated.  For a current user, a
    dispatch that returns, and a working session for the store: the
    response is the plugin's answer or, without one, what [think] returns;
    the conversation table gains the row of the turn with that response;
    and the reply is that response or, when a later step raises, the fixed
    error text, with the row still stored. *)
Theorem process_message_stores_turn_before_later_steps (env : Env)
    (plugins : PluginManager.Plugins) (message : string) (w : World)
    (pr : option string) (w2 : World) :
  Py.truthy_int (current_user_id (agent w)) = true ->
  PluginManager.route_message plugins message (conversation_context (agent w))
    (mkWorld (agent w) (db w) (faults w) (clock w + 1)) = (Ok pr, w2) ->
  hd false (faults w2) = false ->
  exists reply response w' t,
    AgentCore.process_message env plugins message w = (Ok reply, w')
    /\ (reply = response \/ reply = AgentCore.error_reply)
    /\ (pr = Some response
        \/ (pr = None
            /\ outcome (AIBrain.think env message
                          (conversation_context (agent w2)) (Py.keys plugins))
                       w2 = Ok response))
    /\ Models.conversations (db w')
       = Models.conversations (db w2)
         ++ [Models.mkConversation
               (Models.next_id Models.conv_id (Models.conversations (db w2)))
               (current_user_id (agent w2)) message response t].
Proof.
  intros Hu Hroute Hf.
  destruct (analyze_intent_total env message w) as [intent Hi].
  set (respond :=
         match pr with
         | Some r =>
             if Py.truthy_str (Some r) then ret r
             else (a' <- get_agent ;;
                   AIBrain.think env message (conversation_context a')
                     (Py.keys plugins))
         | None =>
             a' <- get_agent ;;
             AIBrain.think env message (conversation_context a')
               (Py.keys plugins)
         end).
  assert (Hresp : exists response w3,
            respond w2 = (Ok response, w3)
            /\ (pr = Some response
                \/ (pr = None
                    /\ outcome (AIBrain.think env message
                                  (conversation_context (agent w2))
                                  (Py.keys plugins)) w2 = Ok response))
            /\ agent w3 = agent w2 /\ db w3 = db w2
            /\ faults w3 = faults w2).
  { unfold respond. destruct pr as [r|].
    - pose proof (route_message_some_nonempty _ _ _ _ _ _ Hroute) as Hr.
      apply String.eqb_neq in Hr. simpl. rewrite Hr. simpl.
      exists r, w2. repeat split. now left.
    - unfold bind, get_agent.
      destruct (think_total env message (conversation_context (agent w2))
                  (Py.keys plugins) w2) as [text Ht].
      rewrite Ht. exists text. eexists. split; [reflexivity|].
      unfold outcome. rewrite Ht. simpl. repeat split. right. now split. }
  destruct Hresp as (response & w3 & Hrun & Hpr & Ha3 & Hd3 & Hf3).
  set (w4 := mkWorld (agent w3)
               (AgentCore.add_conversation
                  (Models.mkConversation
                     (Models.next_id Models.conv_id
                        (Models.conversations (db w3)))
                     (current_user_id (agent w3)) message response (clock w3))
                  (db w3))
               (tl (faults w3)) (clock w3 + 1)).
  destruct (after_store_keeps_conversations env message response intent w4)
    as [Hconv Hout].
  cbv zeta in Hconv, Hout.
  assert (Hsteps :
            AgentCore.process_steps env plugins message w
            = (flagged <- lift_result (AgentCore.requires_context intent) ;;
               (if (flagged : bool)
                then AgentCore._extract_memory env message response
                else ret tt) ;;
               AgentCore._update_context message response ;;
               ret response) w4).
  { unfold AgentCore.process_steps.
    unfold bind at 1. rewrite Hi.
    unfold bind at 1. unfold get_agent at 1. cbv beta iota. simpl agent.
    unfold bind at 1. rewrite Hroute.
    unfold bind at 1. fold respond. rewrite Hrun.
    unfold bind at 1.
    rewrite store_conversation_run by (now rewrite Hf3).
    reflexivity. }
  exists (match fst (AgentCore.process_steps env plugins message w) with
          | Ok s => s
          | Raise _ => AgentCore.error_reply
          end),
         response,
         (snd (AgentCore.process_steps env plugins message w)),
         (clock w3).
  split.
  - unfold AgentCore.process_message, bind, get_agent, try_except.
    rewrite Hu. cbv beta iota delta [negb].
    destruct (AgentCore.process_steps env plugins message w) as [[s|e] w'];
      reflexivity.
  - rewrite Hsteps. unfold final, outcome in Hconv, Hout.
    split; [|split; [exact Hpr|]].
    + destruct Hout as [Hok|[e He]]; [rewrite Hok | rewrite He];
        [now left | now right].
    + rewrite Hconv. unfold w4. simpl. now rewrite Hd3, Ha3.
Qed.

(** A classification that is a JSON list: the turn is answered by [think]
    and stored, then reading the classification raises, and the reply is
    the error text. *)
Lemma process_message_stores_turn_before_later_steps_witness :
  exists w',
    AgentCore.process_message env_list_intent [] "hi" (alice_world 100 [])
      = (Ok AgentCore.error_reply, w')
    /\ map Models.response (Models.conversations (db w')) = ["Sure."].
Proof.
  destruct (process_message_stores_turn_before_later_steps env_list_intent []
              "hi" (alice_world 100 []) None
              (mkWorld (agent (alice_world 100 [])) (db (alice_world 100 []))
                       (faults (alice_world 100 []))
                       (clock (alice_world 100 []) + 1))
              eq_refl eq_refl eq_refl)
    as (reply & response & w' & t & Hrun & _ & Hresp & Hconv).
  destruct Hresp as [Hresp|[_ Hresp]]; [discriminate|].
  injection Hresp as <-.
  assert (E : AgentCore.process_message env_list_intent [] "hi"
                (alice_world 100 [])
              = (Ok AgentCore.error_reply,
                 final (AgentCore.process_message env_list_intent [] "hi")
                       (alice_world 100 [])))
    by reflexivity.
  rewrite E in Hrun. injection Hrun as <- <-.
  eexists. split; [exact E|]. rewrite Hconv. reflexivity.
Defined.

(** *** plugins/basic_financial.py: reports *)

(** X14.  [_generate_report] never raises and changes neither the store
    nor the agent.  Its period always ends at the current time; when the
    storage session fails the answer is the fixed trouble text, and when
    the user has no transaction in the period it is "No transactions found
    for" followed by the period. *)
Theorem generate_report_never_raises_or_writes
    (cal : BasicFinancial.Calendar) (query : string) (w : World) :
  exists text w' range,
    BasicFinancial._generate_report cal query w = (Ok text, w')
    /\ db w' = db w
    /\ agent w' = agent w
    /\ snd range = clock w
    /\ (hd false (faults w) = true -> text = BasicFinancial.report_trouble)
    /\ (hd false (faults w) = false ->
        filter (BasicFinancial.in_range (current_user_id (agent w)) range)
               (Models.financial_transactions (db w)) = [] ->
        text = ("No transactions found for "
                  ++ BasicFinancial._format_period cal range)%string).
Proof.
  unfold BasicFinancial._generate_report, try_except, bind.
  destruct (extract_time_range_run cal query w) as (range & Hr & Hend).
  rewrite Hr.
  destruct (faults w) as [|[|] rest] eqn:Hf.
  - rewrite with_db_run by reflexivity.
    unfold bind, get_db_state, get_agent. simpl.
    destruct (filter (BasicFinancial.in_range (current_user_id (agent w)) range)
                     (Models.financial_transactions (db w))) eqn:E;
      do 2 eexists; exists range; (split; [reflexivity|]);
      simpl; repeat split; try assumption; try discriminate; auto;
      try (intros; congruence).
  - erewrite with_db_fault by reflexivity.
    do 2 eexists. exists range. split; [reflexivity|].
    simpl. repeat split; try assumption; try discriminate; auto.
  - rewrite with_db_run by reflexivity.
    unfold bind, get_db_state, get_agent. simpl.
    destruct (filter (BasicFinancial.in_range (current_user_id (agent w)) range)
                     (Models.financial_transactions (db w))) eqn:E;
      do 2 eexists; exists range; (split; [reflexivity|]);
      simpl; repeat split; try assumption; try discriminate; auto;
      try (intros; congruence).
Qed.

(** X15.  Whatever the letter case, a message that contains "spent" is
    answered by the report branch of [handle]: it never reaches
    [_log_transaction], [_set_budget] or [_check_budget], whatever these
    do, and it leaves the store as it was. *)
Theorem spent_word_always_reports (cal : BasicFinancial.Calendar)
    (_log_transaction : string -> string -> M string)
    (_set_budget : string -> M string) (_check_budget : M string)
    (message : string) (context : option Context) (w : World) :
  Py.contains "spent" (Py.lower message) = true ->
  BasicFinancial.can_handle message context = Ok true
  /\ BasicFinancial.handle cal _log_transaction _set_budget _check_budget
       message context
     = (r <- BasicFinancial._generate_report cal message ;; ret (Some r))
  /\ db (final (BasicFinancial.handle cal _log_transaction _set_budget
                  _check_budget message context) w)
     = db w.
Proof.
  intros Hs.
  assert (Hh : BasicFinancial.handle cal _log_transaction _set_budget
                 _check_budget message context
               = (r <- BasicFinancial._generate_report cal message ;;
                  ret (Some r))).
  { unfold BasicFinancial.handle, BasicFinancial.mentions, Py.any.
    cbn [existsb]. rewrite Hs. rewrite orb_true_r. reflexivity. }
  split; [|split; [exact Hh|]].
  - unfold BasicFinancial.can_handle, BasicFinancial.keywords, Py.any.
    cbn [existsb]. now rewrite Hs.
  - rewrite Hh. unfold final, bind.
    destruct (generate_report_reads_only cal message w)
      as (text & w' & Hg & Hdb).
    rewrite Hg. exact Hdb.
Qed.

(** An upper-case variant of the advertised phrase. *)
Lemma spent_word_always_reports_witness :
  outcome
    (BasicFinancial.handle sample_calendar (fun _ _ => ret "logged")
       (fun _ => ret "budget set") (ret "budget status")
       "I SPENT 12 dollars on lunch" None)
    (alice_world 100 [])
  = Ok (Some "No transactions found for November 2026")
  /\ db (final
           (BasicFinancial.handle sample_calendar (fun _ _ => ret "logged")
              (fun _ => ret "budget set") (ret "budget status")
              "I SPENT 12 dollars on lunch" None)
           (alice_world 100 []))
     = db (alice_world 100 []).
Proof.
  split; [reflexivity|].
  apply (spent_word_always_reports sample_calendar (fun _ _ => ret "logged")
           (fun _ => ret "budget set") (ret "budget status")
           "I SPENT 12 dollars on lunch" None (alice_world 100 [])).
  reflexivity.
Defined.

(** *** core/plugin_manager.py: loading and shutting down *)





(** X16.  [shutdown_all] never raises and runs the [shutdown] of every
    registered plugin, in registry order, each in the world the previous
    ones left, whether or not an earlier one raised. *)
Theorem shutdown_all_runs_every_plugin (instances : Lifecycle.Instances)
    (w : World) :
  Lifecycle.shutdown_all instances w
  = (Ok tt,
     fold_left
       (fun w0 x =>
          final (Lifecycle.shutdown (snd x) (Lifecycle.config (snd x))) w0)
       instances w).
Proof.
  revert w. induction instances as [|[n inst] rest IH]; intros w; simpl.
  - reflexivity.
  - unfold bind, try_except, final.
    destruct (Lifecycle.shutdown inst (Lifecycle.config inst) w)
      as [[[]|e] w1]; simpl; apply IH.
Qed.

Section LoadingFacts.
Import Lifecycle.
Variable import_plugin : string -> result (option Instance).
Variable enabled_plugins : list string.
Variable plugin_settings : list (string * Py.Json).






End LoadingFacts.


(** *** core/plugin.py: plugin settings *)

Lemma dict_get_set_same {V : Type} (d : list (string * V)) (k : string)
    (v : V) :
  Py.dict_get (Py.dict_set d k v) k = Some v.
Proof.
  induction d as [|[k0 v0] t IH]; simpl.
  - now rewrite String.eqb_refl.
  - destruct (String.eqb k0 k) eqn:E; simpl; rewrite E; [reflexivity|exact IH].
Qed.

Lemma dict_get_set_other {V : Type} (d : list (string * V)) (k k' : string)
    (v : V) :
  k' <> k -> Py.dict_get (Py.dict_set d k v) k' = Py.dict_get d k'.
Proof.
  intros Hne. induction d as [|[k0 v0] t IH]; simpl.
  - apply String.eqb_neq in Hne. rewrite String.eqb_sym in Hne.
    now rewrite Hne.
  - destruct (String.eqb k0 k) eqn:E; simpl.
    + apply String.eqb_eq in E. subst k0.
      assert (Hk : String.eqb k k' = false)
        by (apply String.eqb_neq; congruence).
      now rewrite Hk.
    + destruct (String.eqb k0 k'); [reflexivity | exact IH].
Qed.

(** X18.  When [set_config] succeeds, [get_config] of the same key
    returns the value set, whatever the default, and every other key reads
    as before; [set_config] succeeds exactly on settings that are a
    mapping, and on the empty settings of a new plugin [get_config]
    returns the default. *)
Theorem set_config_then_get_config (config : Py.Json) (key : string)
    (value : Py.Json) :
  (forall config',
     Lifecycle.set_config config key value = Ok config' ->
     (forall default, Lifecycle.get_config config' key default = Ok value)
     /\ (forall key' default,
           key' <> key ->
           Lifecycle.get_config config' key' default
           = Lifecycle.get_config config key' default))
  /\ ((exists config', Lifecycle.set_config config key value = Ok config')
      <-> exists fields, config = Py.JObj fields)
  /\ (forall default,
        Lifecycle.get_config (Py.JObj []) key default = Ok default).
Proof.
  split; [|split].
  - intros config' H. destruct config; try discriminate.
    injection H as <-. split.
    + intros default. simpl. now rewrite dict_get_set_same.
    + intros key' default Hne. simpl. now rewrite dict_get_set_other.
  - split.
    + intros [config' H]. destruct config; try discriminate.
      eexists. reflexivity.
    + intros [fields ->]. eexists. reflexivity.
  - reflexivity.
Qed.

(** *** core/agent_core.py: a whole successful turn *)

Lemma truncate_history_keeps_turn (bound : Z) (h : list Entry) (u a : Entry) :
  0 < bound ->
  exists dropped kept,
    h = dropped ++ kept
    /\ AgentCore.truncate_history bound (h ++ [u; a]) = kept ++ [u; a]
    /\ Z.of_nat (List.length kept) + 2 <= 2 * bound.
Proof.
  intros Hb. unfold AgentCore.truncate_history.
  rewrite length_app. simpl List.length.
  destruct (bound * 2 <? Z.of_nat (List.length h + 2)) eqn:E.
  - apply Z.ltb_lt in E.
    set (k := (List.length h + 2 - Z.to_nat (bound * 2))%nat).
    exists (firstn k h), (skipn k h).
    split; [symmetry; apply firstn_skipn|]. split.
    + replace (- bound * 2) with (- (bound * 2)) by lia.
      rewrite slice_from_neg_skipn by lia.
      rewrite length_app. simpl List.length. fold k.
      apply skipn_app_left. unfold k. lia.
    + rewrite length_skipn. unfold k. lia.
  - apply Z.ltb_ge in E. exists [], h. repeat split. lia.
Qed.

(** X19.  A turn in which nothing fails: for a current user whose context
    is loaded, a positive bound, a dispatch that returns, a classification
    that is a mapping and a working store, [process_message] returns the
    response (the plugin's answer or, without one, the text of [think]);
    the conversation table ends with the row of the turn, and the history
    ends with the user entry and the assistant entry of the turn, in front
    of which only older entries have been dropped: reply, stored row and
    cached entries carry the same message and response. *)
Theorem process_message_successful_turn (env : Env)
    (plugins : PluginManager.Plugins) (message : string) (w : World)
    (pr : option string) (w2 : World) (c : Context) (intent : Py.Json)
    (flagged : bool) :
  Py.truthy_int (current_user_id (agent w)) = true ->
  outcome (AIBrain.analyze_intent env message) w = Ok intent ->
  AgentCore.requires_context intent = Ok flagged ->
  PluginManager.route_message plugins message (conversation_context (agent w))
    (mkWorld (agent w) (db w) (faults w) (clock w + 1)) = (Ok pr, w2) ->
  hd false (faults w2) = false ->
  conversation_context (agent w2) = Some c ->
  0 < max_context_messages (agent w2) ->
  exists response w' dropped kept t t1 t2,
    AgentCore.process_message env plugins message w = (Ok response, w')
    /\ (pr = Some response
        \/ (pr = None
            /\ outcome (AIBrain.think env message (Some c) (Py.keys plugins))
                       w2 = Ok response))
    /\ Models.conversations (db w')
       = Models.conversations (db w2)
         ++ [Models.mkConversation
               (Models.next_id Models.conv_id (Models.conversations (db w2)))
               (current_user_id (agent w2)) message response t]
    /\ history c = dropped ++ kept
    /\ current_history w'
       = Some (kept ++ [mkEntry "user" message t1;
                        mkEntry "assistant" response t2])
    /\ Z.of_nat (List.length kept) + 2 <= 2 * max_context_messages (agent w2).
Proof.
  intros Hu Hintent Hflag Hroute Hf Hc Hb.
  destruct (analyze_intent_total env message w) as [intent' Hi].
  assert (intent' = intent)
    by (unfold outcome in Hintent; rewrite Hi in Hintent; simpl in Hintent;
        congruence).
  subst intent'.
  (* the response *)
  assert (Hresp : exists response w3,
            (match pr with
             | Some r =>
                 if Py.truthy_str (Some r) then ret r
                 else (a' <- get_agent ;;
                       AIBrain.think env message (conversation_context a')
                         (Py.keys plugins))
             | None =>
                 a' <- get_agent ;;
                 AIBrain.think env message (conversation_context a')
                   (Py.keys plugins)
             end) w2 = (Ok response, w3)
            /\ (pr = Some response
                \/ (pr = None
                    /\ outcome (AIBrain.think env message (Some c)
                                  (Py.keys plugins)) w2 = Ok response))
            /\ agent w3 = agent w2 /\ db w3 = db w2
            /\ faults w3 = faults w2).
  { destruct pr as [r|].
    - pose proof (route_message_some_nonempty _ _ _ _ _ _ Hroute) as Hr.
      apply String.eqb_neq in Hr. simpl. rewrite Hr. simpl.
      exists r, w2. repeat split. now left.
    - unfold bind, get_agent. rewrite Hc.
      destruct (think_total env message (Some c) (Py.keys plugins) w2)
        as [text Ht].
      rewrite Ht. exists text. eexists. split; [reflexivity|].
      unfold outcome. rewrite Ht. simpl. repeat split. right. now split. }
  destruct Hresp as (response & w3 & Hrun & Hpr & Ha3 & Hd3 & Hf3).
  set (w4 := mkWorld (agent w3)
               (AgentCore.add_conversation
                  (Models.mkConversation
                     (Models.next_id Models.conv_id
                        (Models.conversations (db w3)))
                     (current_user_id (agent w3)) message response (clock w3))
                  (db w3))
               (tl (faults w3)) (clock w3 + 1)).
  (* memory extraction, if any *)
  assert (Hmem : exists w5,
            (if flagged then AgentCore._extract_memory env message response
             else ret tt) w4 = (Ok tt, w5)
            /\ agent w5 = agent w4
            /\ Models.conversations (db w5) = Models.conversations (db w4)).
  { destruct flagged.
    - apply extract_memory_keeps_conversations.
    - exists w4. repeat split. }
  destruct Hmem as (w5 & Hm5 & Ha5 & Hc5).
  assert (Hctx5 : conversation_context (agent w5) = Some c)
    by (rewrite Ha5; unfold w4; simpl; now rewrite Ha3).
  assert (Hmax5 : max_context_messages (agent w5)
                  = max_context_messages (agent w2))
    by (rewrite Ha5; unfold w4; simpl; now rewrite Ha3).
  destruct (truncate_history_keeps_turn (max_context_messages (agent w2))
              (history c) (mkEntry "user" message (clock w5))
              (mkEntry "assistant" response (clock w5 + 1)) Hb)
    as (dropped & kept & Hsplit & Htrunc & Hlen).
  exists response. eexists.
  exists dropped, kept, (clock w3), (clock w5), (clock w5 + 1).
  split.
  - unfold AgentCore.process_message, bind, get_agent, try_except.
    rewrite Hu. cbv beta iota delta [negb].
    unfold AgentCore.process_steps.
    unfold bind at 1. rewrite Hi.
    unfold bind at 1. unfold get_agent at 1. cbv beta iota. simpl agent.
    unfold bind at 1. rewrite Hroute.
    unfold bind at 1. rewrite Hrun.
    unfold bind at 1.
    rewrite store_conversation_run by (now rewrite Hf3).
    fold w4.
    unfold bind at 1. rewrite Hflag. unfold lift_result, ret at 1.
    unfold bind at 1. rewrite Hm5.
    unfold bind at 1.
    unfold AgentCore._update_context, bind, get_agent.
    rewrite Hctx5. unfold utcnow, put_agent, ret. simpl.
    rewrite Hmax5.
    change ([mkEntry "user" message (clock w5)]
            ++ [mkEntry "assistant" response (clock w5 + 1)])
      with [mkEntry "user" message (clock w5);
            mkEntry "assistant" response (clock w5 + 1)].
    rewrite Htrunc. reflexivity.
  - split; [exact Hpr|]. simpl.
    split; [rewrite Hc5; unfold w4; simpl; now rewrite Hd3, Ha3|].
    split; [exact Hsplit|]. split; [reflexivity | exact Hlen].
Qed.

(** A first turn of the sample user with the generation service down: the
    apology of [think] is returned, stored and cached. *)
Lemma process_message_successful_turn_witness :
  exists w',
    AgentCore.process_message env_flagged [] "my cat is Tom"
      (alice_world 100 []) = (Ok AIBrain.think_apology, w')
    /\ map Models.response (Models.conversations (db w'))
       = [AIBrain.think_apology]
    /\ option_map (map content) (current_history w')
       = Some ["my cat is Tom"; AIBrain.think_apology].
Proof.
  destruct (process_message_successful_turn env_flagged [] "my cat is Tom"
              (alice_world 100 []) None
              (mkWorld (agent (alice_world 100 [])) (db (alice_world 100 []))
                       (faults (alice_world 100 []))
                       (clock (alice_world 100 []) + 1))
              (mkContext (Some (Database.user_data alice)) [])
              (Py.JObj [("requires_context", Py.JBool true)]) true
              eq_refl eq_refl eq_refl eq_refl eq_refl eq_refl eq_refl)
    as (response & w' & dropped & kept & t & t1 & t2
        & Hrun & Hpr & Hconv & Hsplit & Hhist & _).
  destruct Hpr as [Hpr|[_ Hpr]]; [discriminate|].
  injection Hpr as <-.
  simpl in Hsplit. symmetry in Hsplit. apply app_eq_nil in Hsplit.
  destruct Hsplit as [_ ->].
  exists w'. split; [exact Hrun|]. split.
  - rewrite Hconv. reflexivity.
  - rewrite Hhist. reflexivity.
Defined.

(** *** core/agent_core.py: whose turns [set_user] loads *)

Lemma limit_in {R : Type} (n : Z) (rows : list R) (r : R) :
  In r (AgentCore.limit n rows) -> In r rows.
Proof.
  unfold AgentCore.limit. destruct (n <? 0); [auto | apply in_firstn_in].
Qed.

Lemma recent_conversations_own (a : Agent) (d : Models.DB)
    (r : Models.Conversation) :
  In r (rev (AgentCore.recent_conversations a d)) ->
  In r (Models.conversations d)
  /\ Models.conv_user_id r = current_user_id a.
Proof.
  intros H. apply in_rev in H. unfold AgentCore.recent_conversations in H.
  apply limit_in in H. unfold AgentCore.order_by_timestamp_desc in H.
  apply (Permutation_in _ (sorted_by_perm _ _)) in H.
  apply filter_In in H. destruct H as [Hin Hu]. split; [exact Hin|].
  now apply eq_opt_Z_eq.
Qed.

(** X20.  With a working store [set_user] succeeds, makes the user of the
    given transport id current, and installs a context for that user whose
    history is built only from conversation rows stored under that user's
    id; the conversation table is not touched. *)
Theorem set_user_loads_only_own_turns (tid : string)
    (uname fname lname : option string) (w : World) :
  no_faults w ->
  exists u w' rows,
    AgentCore.set_user tid uname fname lname w = (Ok tt, w')
    /\ Models.telegram_id u = tid
    /\ In u (Models.users (db w'))
    /\ current_user_id (agent w') = Some (Models.user_id_ u)
    /\ option_map ctx_user (conversation_context (agent w'))
       = Some (Some (Database.user_data u))
    /\ current_history w'
       = Some (map AgentCore.user_entry rows
               ++ map AgentCore.assistant_entry rows)
    /\ (forall r, In r rows ->
          In r (Models.conversations (db w))
          /\ Models.conv_user_id r = Some (Models.user_id_ u))
    /\ Models.conversations (db w') = Models.conversations (db w).
Proof.
  intros Hnf.
  assert (Hhd : hd false (faults w) = false) by now apply no_faults_hd.
  assert (Htl : hd false (tl (faults w)) = false).
  { pose proof (no_faults_tl _ Hnf) as H.
    destruct (tl (faults w)); simpl; [reflexivity | now inversion H]. }
  unfold AgentCore.set_user, bind.
  destruct (Models.first (fun u => String.eqb (Models.telegram_id u) tid)
                         (Models.users (db w))) as [u|] eqn:Hu.
  - rewrite (get_or_create_user_known tid uname fname lname w u Hhd Hu).
    unfold get_agent, put_agent. cbv beta iota. simpl agent. simpl db.
    simpl faults. simpl clock.
    rewrite load_conversation_context_run by exact Htl.
    apply first_some_in in Hu. destruct Hu as [Hin Htid].
    apply String.eqb_eq in Htid.
    exists u. eexists. eexists. split; [reflexivity|].
    unfold current_history. simpl.
    repeat split; try assumption; try reflexivity;
      apply recent_conversations_own in H; simpl in H; tauto.
  - rewrite (get_or_create_user_new tid uname fname lname w Hhd Hu).
    unfold get_agent, put_agent. cbv beta iota. simpl agent. simpl db.
    simpl faults. simpl clock.
    rewrite load_conversation_context_run by exact Htl.
    eexists. eexists. eexists. split; [reflexivity|].
    unfold current_history. simpl.
    repeat split; try reflexivity;
      try (apply in_or_app; right; now left);
      apply recent_conversations_own in H; simpl in H; tauto.
Qed.

(** User 2 of the sample store, who has no turn, arrives while user 1's
    context is loaded: the new history is empty. *)
Lemma set_user_loads_only_own_turns_witness :
  exists w',
    AgentCore.set_user "43" (Some "bob") None None (shared_world [])
      = (Ok tt, w')
    /\ current_user_id (agent w') = Some 2
    /\ current_history w' = Some [].
Proof.
  destruct (set_user_loads_only_own_turns "43" (Some "bob") None None
              (shared_world []) (Forall_nil _))
    as (u & w' & rows & Hrun & _).
  exists w'. split; [exact Hrun|].
  assert (E : w' = final (AgentCore.set_user "43" (Some "bob") None None)
                         (shared_world []))
    by (unfold final; now rewrite Hrun).
  rewrite E. split; reflexivity.
Defined.

(** *** core/ai_brain.py: the clean-up before [json.loads] *)

Lemma append_empty_r (s : string) : (s ++ EmptyString)%string = s.
Proof. induction s as [|c t IH]; simpl; [reflexivity | now rewrite IH]. Qed.

Lemma no_tick_cons (c : ascii) (t : string) :
  Py.contains "`" (String c t) = false ->
  c <> "`"%char /\ Py.contains "`" t = false.
Proof.
  cbn [Py.contains]. intros H. apply orb_false_iff in H.
  destruct H as [Hp Ht]. split; [|exact Ht].
  intros ->. simpl in Hp. now destruct t.
Qed.

Lemma no_tick_build (c : ascii) (t : string) :
  c <> "`"%char -> Py.contains "`" t = false ->
  Py.contains "`" (String c t) = false.
Proof.
  intros Hc Ht. cbn [Py.contains String.prefix].
  destruct (Ascii.ascii_dec "`" c) as [E|_]; [now contradict Hc|].
  exact Ht.
Qed.

(** Text without a backquote is copied by a replacement whose pattern
    starts with one. *)
Lemma replace_aux_no_tick_app (old' new s rest : string) :
  Py.contains "`" s = false ->
  Py.replace_aux (String "`" old') new 0 (s ++ rest)
  = (s ++ Py.replace_aux (String "`" old') new 0 rest)%string.
Proof.
  induction s as [|c t IH]; intros H; [reflexivity|].
  apply no_tick_cons in H. destruct H as [Hc Ht].
  change (String c t ++ rest)%string with (String c (t ++ rest)).
  cbn [Py.replace_aux String.prefix].
  destruct (Ascii.ascii_dec "`" c) as [E|_]; [now contradict Hc|].
  rewrite (IH Ht). reflexivity.
Qed.

Lemma lstrip_no_tick (s : string) :
  Py.contains "`" s = false -> Py.contains "`" (Py.lstrip s) = false.
Proof.
  induction s as [|c t IH]; intros H; [exact H|].
  cbn [Py.lstrip]. destruct (Py.is_space c); [|exact H].
  apply IH. now apply no_tick_cons in H.
Qed.

Lemma rstrip_no_tick (s : string) :
  Py.contains "`" s = false -> Py.contains "`" (Py.rstrip s) = false.
Proof.
  induction s as [|c t IH]; intros H; [exact H|].
  apply no_tick_cons in H. destruct H as [Hc Ht]. specialize (IH Ht).
  cbn [Py.rstrip]. destruct (Py.rstrip t) as [|a r].
  - destruct (Py.is_space c); [reflexivity | now apply no_tick_build].
  - now apply no_tick_build.
Qed.

Lemma rstrip_idempotent (s : string) : Py.rstrip (Py.rstrip s) = Py.rstrip s.
Proof.
  induction s as [|c t IH]; [reflexivity|].
  cbn [Py.rstrip]. destruct (Py.rstrip t) as [|a r] eqn:E.
  - destruct (Py.is_space c) eqn:Ec; [reflexivity|].
    cbn [Py.rstrip]. now rewrite Ec.
  - change (Py.rstrip (String c (String a r)))
      with (match Py.rstrip (String a r) with
            | EmptyString =>
                if Py.is_space c then EmptyString else String c EmptyString
            | x => String c x
            end).
    rewrite IH. reflexivity.
Qed.

Lemma lstrip_head (s : string) :
  Py.lstrip s = EmptyString
  \/ exists c t, Py.lstrip s = String c t /\ Py.is_space c = false.
Proof.
  induction s as [|c t IH]; [now left|].
  cbn [Py.lstrip]. destruct (Py.is_space c) eqn:E; [exact IH|].
  right. exists c, t. now split.
Qed.

(** [strip] is idempotent. *)
Lemma strip_idempotent (s : string) : Py.strip (Py.strip s) = Py.strip s.
Proof.
  unfold Py.strip. destruct (lstrip_head s) as [->|(c & t & -> & Hc)];
    [reflexivity|].
  assert (Hr : exists t', Py.rstrip (String c t) = String c t').
  { cbn [Py.rstrip]. destruct (Py.rstrip t); [rewrite Hc|]; eexists;
      reflexivity. }
  destruct Hr as [t' Hr]. rewrite Hr.
  cbn [Py.lstrip]. rewrite Hc. rewrite <- Hr. apply rstrip_idempotent.
Qed.

Lemma rstrip_app_kept (s t : string) :
  Py.rstrip t <> EmptyString ->
  Py.rstrip (s ++ t) = (s ++ Py.rstrip t)%string.
Proof.
  intros Ht. induction s as [|c s' IH]; [reflexivity|].
  change (String c s' ++ t)%string with (String c (s' ++ t)).
  change (String c s' ++ Py.rstrip t)%string
    with (String c (s' ++ Py.rstrip t)).
  cbn [Py.rstrip]. rewrite IH.
  destruct (s' ++ Py.rstrip t)%string eqn:E; [|reflexivity].
  destruct s'; simpl in E; [now contradict Ht | discriminate].
Qed.

Lemma open_fence_removed (rest : string) :
  Py.replace ("```json" ++ Py.nl) EmptyString ("```json" ++ Py.nl ++ rest)
  = Py.replace_aux (String "`" ("``json" ++ Py.nl)) EmptyString 0 rest.
Proof. destruct rest; reflexivity. Qed.

(** X21.  The clean-up [analyze_intent] applies before [json.loads]: an
    answer body without a backquote reaches the parser stripped of
    surrounding white space, whether the model sent it alone or wrapped in
    a json code fence. *)
Theorem clean_json_text_unwraps_fence (body : string) :
  Py.contains "`" body = false ->
  AIBrain.clean_json_text ("```json" ++ Py.nl ++ body ++ "```")%string
    = Py.strip body
  /\ AIBrain.clean_json_text body = Py.strip body.
Proof.
  intros Hb. unfold AIBrain.clean_json_text. split.
  - assert (Hs : Py.strip ("```json" ++ Py.nl ++ body ++ "```")%string
                 = ("```json" ++ Py.nl ++ body ++ "```")%string).
    { unfold Py.strip.
      change (Py.lstrip ("```json" ++ Py.nl ++ body ++ "```"))%string
        with (("```json" ++ Py.nl) ++ (body ++ "```"))%string.
      rewrite rstrip_app_kept.
      - rewrite rstrip_app_kept by discriminate. reflexivity.
      - rewrite rstrip_app_kept by discriminate.
        destruct body; discriminate. }
    rewrite Hs.
    rewrite (open_fence_removed (body ++ "```")).
    rewrite (replace_aux_no_tick_app _ _ body "```" Hb).
    change (Py.replace_aux (String "`" ("``json" ++ Py.nl)) EmptyString 0
              "```")
      with "```".
    unfold Py.replace.
    rewrite (replace_aux_no_tick_app _ _ body "```" Hb).
    change (Py.replace_aux (String "`" "``") EmptyString 0 "```")
      with EmptyString.
    now rewrite append_empty_r.
  - assert (Hn : Py.contains "`" (Py.strip body) = false)
      by (apply rstrip_no_tick, lstrip_no_tick, Hb).
    assert (Hrep : forall old', Py.replace (String "`" old') EmptyString
                                  (Py.strip body) = Py.strip body).
    { intros old'. unfold Py.replace.
      rewrite <- (append_empty_r (Py.strip body)) at 1.
      rewrite (replace_aux_no_tick_app _ _ _ EmptyString Hn).
      apply append_empty_r. }
    change ("```json" ++ Py.nl)%string
      with (String "`" ("``json" ++ Py.nl))%string.
    rewrite Hrep. rewrite Hrep. apply strip_idempotent.
Qed.

(** A fenced answer with a trailing line feed. *)
Lemma clean_json_text_unwraps_fence_witness :
  AIBrain.clean_json_text
    ("```json" ++ Py.nl ++ ("{}" ++ Py.nl) ++ "```")%string = "{}"
  /\ AIBrain.clean_json_text ("  {}" ++ Py.nl)%string = "{}".
Proof.
  split.
  - exact (eq_trans
             (proj1 (clean_json_text_unwraps_fence ("{}" ++ Py.nl)%string
                       eq_refl))
             eq_refl).
  - exact (eq_trans
             (proj2 (clean_json_text_unwraps_fence ("  {}" ++ Py.nl)%string
                       eq_refl))
             eq_refl).
Defined.
